(** * evox: the Gaussian-process classification wrapper and its example script

    A shallow embedding of
    [src/evox/operators/gaussian_process/classification.py] and of the
    scratch snippet [f] / [rr] of [tests/test.py].

    The wrapper owns no numerical code: every line of it is an attribute
    lookup, a call or a [*] on an object of [gpjax], [jax] or [optax].  The
    embedding therefore keeps the Python object protocol explicit.  A Python
    value is either a piece of data the wrapper itself builds (None, a bool,
    an int, a tuple, one of the four stub functions) or an opaque external
    object known by its identity; every operation on an external object is
    an event answered by a handler that stands for the interpreter
    dispatching into the libraries.  The handler owns a state of its own, may
    answer with a value or raise, and is universally quantified in the
    theorems.  The instance dictionary of the [GPClassification] object is a
    finite map from attribute names to values. *)

From stdpp Require Import base gmap list strings.

Open Scope Z_scope.

(** ** Python values, exceptions and results *)

(** Exception classes the module can meet.  [ModuleNotFoundError] is the
    subclass of [ImportError] that a missing package raises; [OtherError]
    stands for every class outside the [ImportError] hierarchy that is not
    listed.  [str e] is the message. *)
Inductive exn : Type :=
| ImportError (msg : string)
| ModuleNotFoundError (msg : string)
| AttributeError (msg : string)
| TypeError (msg : string)
| ValueError (msg : string)
| OtherError (cls msg : string).

Definition str (e : exn) : string :=
  match e with
  | ImportError msg | ModuleNotFoundError msg | AttributeError msg
  | TypeError msg | ValueError msg | OtherError _ msg => msg
  end.

(** [except ImportError] catches the class and its subclasses. *)
Definition isinstance_ImportError (e : exn) : bool :=
  match e with
  | ImportError _ | ModuleNotFoundError _ => true
  | _ => false
  end.

#[warnings="-register-all"]
Inductive value : Type :=
| VNone
| VBool (b : bool)
| VInt (n : Z)
| VObj (id : N)
| VTuple (items : list value)
| VStub (symbol : string) (original_error_msg : string).

Inductive result (A : Type) : Type :=
| Ok (a : A)
| Raised (e : exn).
Arguments Ok {A} a.
Arguments Raised {A} e.

(** Operations on objects the module does not own. *)
Inductive event : Type :=
| EImport (module : string) (name : option string)
| EGetAttr (o : value) (name : string)
| ECall (callee : value) (args : list value) (kwargs : list (string * value))
| EMul (lhs rhs : value).

Definition entry : Type := event * result value.

(** ** The stub functions of lines 16-34 *)

Definition dquote : string := String (Ascii.ascii_of_nat 34) EmptyString.

(** [f'{symbol} requires gpjax, but got "{original_error_msg}" when importing'] *)
Definition stub_message (symbol original_error_msg : string) : string :=
  symbol +:+ " requires gpjax, but got " +:+ dquote +:+ original_error_msg
         +:+ dquote +:+ " when importing".

Definition stub_gpx (msg : string) : value := VStub "gpjax" msg.
Definition stub_RBF (msg : string) : value := VStub "RBF" msg.
Definition stub_Zero (msg : string) : value := VStub "Zero" msg.
Definition stub_LogPosteriorDensity (msg : string) : value :=
  VStub "LogPosteriorDensity" msg.

(** [s] occurs inside [t]. *)
Definition contains (t s : string) : Prop :=
  ∃ before after : string, t = before +:+ s +:+ after.

(** ** The interpreter state and its monad *)

Section Interpreter.

(** State of the world outside the module, and the handler answering the
    events in it. *)
Context {W : Type}.
Variable ext : W → event → W * result value.

Record machine : Type := Machine {
  self : gmap string value;   (* __dict__ of the GPClassification instance *)
  world : W;
  trace : list entry          (* external operations so far, oldest first *)
}.

(** A statement runs on a machine and leaves a machine, also when it
    raises: attributes assigned before the exception stay assigned. *)
Definition M (A : Type) : Type := machine → machine * result A.

Definition ret {A} (a : A) : M A := λ m, (m, Ok a).
Definition raise {A} (e : exn) : M A := λ m, (m, Raised e).
Definition bind {A B} (c : M A) (k : A → M B) : M B :=
  λ m, match c m with
       | (m1, Ok a) => k a m1
       | (m1, Raised e) => (m1, Raised e)
       end.

(** [try: c except ImportError as e: h e] *)
Definition try_except_ImportError {A} (c : M A) (h : exn → M A) : M A :=
  λ m, match c m with
       | (m1, Ok a) => (m1, Ok a)
       | (m1, Raised e) =>
           if isinstance_ImportError e then h e m1 else (m1, Raised e)
       end.

Definition external (e : event) : M value :=
  λ m, let '(w, r) := ext (world m) e in
       (Machine (self m) w (trace m ++ [(e, r)]), r).

(** Calling a value: a stub is a function of this module and raises its
    [ImportError]; anything else is dispatched outside. *)
Definition call (f : value) (args : list value)
    (kwargs : list (string * value)) : M value :=
  match f with
  | VStub symbol msg => raise (ImportError (stub_message symbol msg))
  | _ => external (ECall f args kwargs)
  end.

(** Attribute lookup.  The names the module looks up on [gpx] ([gps],
    [Dataset], [fit]) are not attributes of a function object. *)
Definition getattr (o : value) (name : string) : M value :=
  match o with
  | VStub _ _ =>
      raise (AttributeError
               ("'function' object has no attribute '" +:+ name +:+ "'"))
  | _ => external (EGetAttr o name)
  end.

Definition self_get (name : string) : M value :=
  λ m, match self m !! name with
       | Some v => (m, Ok v)
       | None =>
           (m, Raised (AttributeError
                 ("'GPClassification' object has no attribute '"
                    +:+ name +:+ "'")))
       end.

Definition self_set (name : string) (v : value) : M unit :=
  λ m, (Machine (<[name := v]> (self m)) (world m) (trace m), Ok tt).

(** [a, b = v].  A tuple of the libraries is a [VTuple]. *)
Definition unpack2 (v : value) : M (value * value) :=
  match v with
  | VTuple [a; b] => ret (a, b)
  | VTuple [] =>
      raise (ValueError "not enough values to unpack (expected 2, got 0)")
  | VTuple [_] =>
      raise (ValueError "not enough values to unpack (expected 2, got 1)")
  | VTuple _ => raise (ValueError "too many values to unpack (expected 2)")
  | _ => raise (TypeError "cannot unpack non-iterable object")
  end.

Notation "x <- c ;; k" := (bind c (λ x, k))
  (at level 100, c at next level, right associativity).
Notation "' ( a , b ) <- c ;; k" := (bind c (λ '(a, b), k))
  (at level 100, c at next level, right associativity).

(** ** The module body *)

(** What the names of the module are bound to once it is loaded: the
    imported modules and symbols, and the default arguments of [__init__]
    and [fit], which Python evaluates once, when the [def] statements of
    the class body run. *)
Record globals : Type := Globals {
  g_jax : value;
  g_jr : value;
  g_jnp : value;
  g_ox : value;
  g_gpx : value;
  g_Zero : value;
  g_RBF : value;
  g_LogPosteriorDensity : value;
  default_kernel : value;
  default_meanfun : value;
  default_object : value;
  default_key : value;
  default_optimizer : value
}.

(** Lines 9-12, the body of the [try]. *)
Definition import_gpjax : M (value * value * value * value) :=
  gpx <- external (EImport "gpjax" None) ;;
  Zero <- external (EImport "gpjax.mean_functions" (Some "Zero")) ;;
  RBF <- external (EImport "gpjax.kernels" (Some "RBF")) ;;
  LogPosteriorDensity <-
    external (EImport "gpjax.objectives" (Some "LogPosteriorDensity")) ;;
  ret (gpx, Zero, RBF, LogPosteriorDensity).

(** Lines 13-34, the [except ImportError as e] clause. *)
Definition define_stubs (e : exn) : M (value * value * value * value) :=
  let original_error_msg := str e in
  ret (stub_gpx original_error_msg, stub_Zero original_error_msg,
       stub_RBF original_error_msg,
       stub_LogPosteriorDensity original_error_msg).

(** Lines 3-119, executed when the module is imported. *)
Definition module_load : M globals :=
  jax <- external (EImport "jax" None) ;;
  jr <- external (EImport "jax.random" None) ;;
  jnp <- external (EImport "jax.numpy" None) ;;
  ox <- external (EImport "optax" None) ;;
  syms <- try_except_ImportError import_gpjax define_stubs ;;
  let '(gpx, Zero, RBF, LogPosteriorDensity) := syms in
  (* class GPClassification: def __init__(self, kernel=RBF(), ... *)
  kernel <- call RBF [] [] ;;
  meanfun <- call Zero [] [] ;;
  object <- call LogPosteriorDensity [] [("negative", VBool true)] ;;
  PRNGKey <- getattr jr "PRNGKey" ;;
  key <- call PRNGKey [VInt 123] [] ;;
  (* def fit(self, x: jax.Array, y: jax.Array, optimizer=ox.adam): the
     default first, then the two annotations, which CPython before 3.14
     evaluates when the [def] statement runs *)
  adam <- getattr ox "adam" ;;
  _ <- getattr jax "Array" ;;
  _ <- getattr jax "Array" ;;
  ret (Globals jax jr jnp ox gpx Zero RBF LogPosteriorDensity
               kernel meanfun object key adam).

Variable g : globals.

(** Lines 68-74, [__init__] with every argument given. *)
Definition init (kernel meanfun likelihood object key : value) : M value :=
  _ <- self_set "kernel" kernel ;;
  _ <- self_set "mean_fun" meanfun ;;
  _ <- self_set "key" key ;;
  gps <- getattr (g_gpx g) "gps" ;;
  Prior <- getattr gps "Prior" ;;
  prior <- call Prior [] [("mean_function", meanfun); ("kernel", kernel)] ;;
  _ <- self_set "prior" prior ;;
  _ <- self_set "likelihood" likelihood ;;
  _ <- self_set "object" object ;;
  prior <- self_get "prior" ;;
  likelihood <- self_get "likelihood" ;;
  posterior <- external (EMul prior likelihood) ;;
  _ <- self_set "posterior" posterior ;;
  ret VNone.

(** [GPClassification(...)]: an argument left out takes its default
    (lines 61-65; the default of [likelihood] is [None]). *)
Definition construct (kernel meanfun likelihood object key : option value)
    : M value :=
  init (default (default_kernel g) kernel)
       (default (default_meanfun g) meanfun)
       (default VNone likelihood)
       (default (default_object g) object)
       (default (default_key g) key).

(** Line 89, right-hand side:
    [gpx.Dataset(X=x.astype(jnp.float32), y=y.astype(jnp.float32))]. *)
Definition fit_dataset (x y : value) : M value :=
  Dataset <- getattr (g_gpx g) "Dataset" ;;
  x_astype <- getattr x "astype" ;;
  float32 <- getattr (g_jnp g) "float32" ;;
  X <- call x_astype [float32] [] ;;
  y_astype <- getattr y "astype" ;;
  float32 <- getattr (g_jnp g) "float32" ;;
  Y <- call y_astype [float32] [] ;;
  call Dataset [] [("X", X); ("y", Y)].

(** Line 90: [self.object(self.posterior, train_data=self.dataset)]. *)
Definition fit_objective : M value :=
  object <- self_get "object" ;;
  posterior <- self_get "posterior" ;;
  dataset <- self_get "dataset" ;;
  call object [posterior] [("train_data", dataset)].

(** Lines 91-99. *)
Definition fit_optimise (optimizer : value) : M value :=
  gpx_fit <- getattr (g_gpx g) "fit" ;;
  model <- self_get "posterior" ;;
  objective <- self_get "object" ;;
  train_data <- self_get "dataset" ;;
  key <- self_get "key" ;;
  r <- call gpx_fit []
         [("model", model); ("objective", objective);
          ("train_data", train_data); ("optim", optimizer);
          ("num_iters", VInt 500); ("key", key);
          ("verbose", VBool false)] ;;
  ' (opt_posterior, history) <- unpack2 r ;;
  _ <- self_set "opt_posterior" opt_posterior ;;
  _ <- self_set "history" history ;;
  ret VNone.

(** Lines 76-99, [fit(self, x, y, optimizer)]. *)
Definition fit (x y optimizer : value) : M value :=
  dataset <- fit_dataset x y ;;
  _ <- self_set "dataset" dataset ;;
  _ <- fit_objective ;;
  fit_optimise optimizer.

(** Lines 101-119, [predict(self, x)]. *)
Definition predict (x : value) : M value :=
  opt_posterior <- self_get "opt_posterior" ;;
  posterior_predict <- getattr opt_posterior "predict" ;;
  dataset <- self_get "dataset" ;;
  latent_dist <- call posterior_predict [x] [("train_data", dataset)] ;;
  opt_posterior <- self_get "opt_posterior" ;;
  likelihood <- getattr opt_posterior "likelihood" ;;
  predictive_dist <- call likelihood [latent_dist] [] ;;
  dist_mean <- getattr predictive_dist "mean" ;;
  predictive_mean <- call dist_mean [] [] ;;
  dist_stddev <- getattr predictive_dist "stddev" ;;
  predictive_std <- call dist_stddev [] [] ;;
  ret (VTuple [predictive_dist; predictive_mean; predictive_std]).

End Interpreter.

Arguments machine : clear implicits.

(** ** The scratch snippet of the test script *)

(** The integer arrays of the snippet are int32 (jax without x64): a sum
    that leaves the range wraps around. *)
Definition int32 (z : Z) : Prop := - 2 ^ 31 ≤ z < 2 ^ 31.

Definition wrap32 (z : Z) : Z := (z + 2 ^ 31) mod 2 ^ 32 - 2 ^ 31.

Definition add32 (x k : Z) : Z := wrap32 (x + k).

(** The conversion of an int32 to float32, the element type of
    [jnp.zeros]: exact up to 2^24 in magnitude, beyond that rounded to 24
    significant bits, ties to even.  A float32 that holds an integer is
    kept as that integer. *)
Definition float32_of_int32 (z : Z) : Z :=
  let a := Z.abs z in
  if a <? 2 ^ 24 then z
  else
    let e := Z.log2 a - 23 in
    let q := a / 2 ^ e in
    let r := a mod 2 ^ e in
    let half := 2 ^ (e - 1) in
    let q' := if (half <? r) || ((r =? half) && Z.odd q) then q + 1 else q in
    Z.sgn z * (q' * 2 ^ e).

(** Line 81, on the int32 scalar [x] that [vmap] hands to [f]. *)
Definition f (x : Z) : list (list Z) :=
  [[x; add32 x 1; add32 x 2]; [add32 x 3; add32 x 4; add32 x 5];
   [add32 x 6; add32 x 7; add32 x 8]; [add32 x 9; add32 x 10; add32 x 11]].

(** [jax.vmap(f, in_axes=0, out_axes=0)]: [f] on every element along axis 0
    of the argument, the results stacked along axis 0. *)
Definition vmap {A B : Type} (f : A → B) (xs : list A) : list B := f <$> xs.

(** [a.shape] of a three-dimensional array. *)
Definition shape (a : list (list (list Z))) : nat * nat * nat :=
  (length a, length (default [] (head a)),
   length (default [] (head (default [] (head a))))).

(** [jnp.zeros(shape=(rows, cols))] *)
Definition zeros (rows cols : nat) : list (list Z) :=
  replicate rows (replicate cols 0).

(** [a[:, i, :]]; an index outside axis 1 is an [IndexError]. *)
Definition take_axis1 (i : nat) (a : list (list (list Z)))
    : option (list (list Z)) :=
  mapM (λ plane, plane !! i) a.

(** [a.flatten()] of a two-dimensional array, row-major. *)
Definition flatten (a : list (list Z)) : list Z := concat a.

(** [a.at[i].set(v)] on the float32 array [a] with the int32 row [v]: the
    new row has to have the shape of the old one, its entries are converted
    to float32, and jax drops an update whose index is out of bounds. *)
Definition at_set (i : nat) (v : list Z) (a : list (list Z))
    : option (list (list Z)) :=
  if decide (Forall (λ row, length row = length v) a)
  then Some (<[i := float32_of_int32 <$> v]> a) else None.

(** Lines 89-90, the body of the loop. *)
Definition rr_body (result : list (list (list Z)))
    (re_res : option (list (list Z))) (i : nat) : option (list (list Z)) :=
  re_res ← re_res;
  plane ← take_axis1 i result;
  at_set i (flatten plane) re_res.

(** Lines 83-93; what [rr] prints: [result.shape] and [re_res]. *)
Definition rr : option (nat * nat * nat * list (list Z)) :=
  let vmap_f := vmap f in
  let result := vmap_f [0; 1; 2] in
  let re_res := zeros 4 9 in
  re_res ← foldl (rr_body result) (Some re_res) (seq 0 (shape result).1.2);
  Some (shape result, re_res).

(** Entry [a[i][j]] of a two-dimensional array. *)
Definition entry2 (a : list (list Z)) (i j : nat) : option Z :=
  row ← a !! i; row !! j.

(** ** Two concrete worlds *)

Definition has_kwarg (name : string) (kwargs : list (string * value)) : bool :=
  bool_decide (name ∈ kwargs.*1).

(** Every library is installed.  The state is the next free object
    identity; each operation answers with a fresh object, and the call that
    carries [num_iters] answers with a pair of fresh objects, as
    [gpjax.fit] does. *)
Definition installed (next : N) (e : event) : N * result value :=
  match e with
  | ECall _ _ kwargs =>
      if has_kwarg "num_iters" kwargs
      then ((next + 2)%N, Ok (VTuple [VObj next; VObj (next + 1)%N]))
      else ((next + 1)%N, Ok (VObj next))
  | _ => ((next + 1)%N, Ok (VObj next))
  end.

(** The same world without gpjax: importing anything from the package
    raises what CPython raises for a missing package. *)
Definition gpjax_missing (next : N) (e : event) : N * result value :=
  match e with
  | EImport module _ =>
      if String.prefix "gpjax" module
      then (next, Raised (ModuleNotFoundError "No module named 'gpjax'"))
      else installed next e
  | _ => installed next e
  end.

(** A machine on which nothing has run yet. *)
Definition boot : machine N := Machine ∅ 0%N [].

(** The names of a module loaded in the world [installed]. *)
Definition loaded_globals : globals :=
  Globals (VObj 0) (VObj 1) (VObj 2) (VObj 3) (VObj 4) (VObj 5) (VObj 6)
          (VObj 7) (VObj 8) (VObj 9) (VObj 10) (VObj 12) (VObj 13).

(** ** Vocabulary of the statements *)

(** The attributes assigned by [__init__] and by [fit]. *)
Definition construction_attrs : list string :=
  ["kernel"; "mean_fun"; "key"; "prior"; "likelihood"; "object"; "posterior"].

Definition fit_attrs : list string := ["dataset"; "opt_posterior"; "history"].

(** [c] assigns no attribute of the instance outside [names]. *)
Definition frames {W A : Type} (names : list string)
    (c : machine W → machine W * result A) : Prop :=
  ∀ (m : machine W) (k : string), k ∉ names → self (c m).1 !! k = self m !! k.

(** The external operations performed since [m], when [m'] is reached. *)
Definition performed {W : Type} (m m' : machine W) (evs : list entry) : Prop :=
  trace m' = trace m ++ evs.

(** No exception of the world outside was handled: an operation that
    raised is the last one performed, and what it raised is the outcome. *)
Definition unhandled {A : Type} (evs : list entry) (r : result A) : Prop :=
  ∀ (before after : list entry) (e : event) (x : exn),
    evs = before ++ (e, Raised x) :: after → after = [] ∧ r = Raised x.

Definition answered (en : entry) : Prop :=
  match en.2 with Ok _ => True | Raised _ => False end.

Definition is_stub (v : value) : bool :=
  match v with VStub _ _ => true | _ => false end.

(** The shape of line 90: one positional argument and the single keyword
    [train_data].  No other call of the module has it. *)
Definition is_objective_call (e : event) : bool :=
  match e with
  | ECall _ [_] [(kw, _)] => bool_decide (kw = "train_data")
  | _ => false
  end.

(** The world [ext], except that an objective that returns, returns
    [answer]. *)
Definition objective_returning {W : Type} (answer : value)
    (ext : W → event → W * result value) (w : W) (e : event)
    : W * result value :=
  if is_objective_call e
  then match ext w e with
       | (w', Ok _) => (w', Ok answer)
       | (w', Raised x) => (w', Raised x)
       end
  else ext w e.

(** The exceptions Python itself raises in the two methods. *)
Definition missing_attribute (name : string) : exn :=
  AttributeError ("'GPClassification' object has no attribute '"
                    +:+ name +:+ "'").

Definition no_function_attribute (name : string) : exn :=
  AttributeError ("'function' object has no attribute '" +:+ name +:+ "'").

(** The value of an attribute in the instance dictionary [d]. *)
Definition attr (d : gmap string value) (name : string) : value :=
  default VNone (d !! name).

(** The first of [names] that [d] does not hold. *)
Fixpoint first_missing (d : gmap string value) (names : list string)
    : option string :=
  match names with
  | [] => None
  | name :: names =>
      match d !! name with
      | Some _ => first_missing d names
      | None => Some name
      end
  end.

(** What the libraries answer to the eleven operations of [fit]. *)
Record fit_answers : Type := Fit_answers {
  fa_Dataset : value;
  fa_x_astype : value;
  fa_float32 : value;
  fa_X : value;
  fa_y_astype : value;
  fa_float32' : value;
  fa_Y : value;
  fa_dataset : value;
  fa_returned : value;
  fa_gpx_fit : value;
  fa_result : value
}.

(** The operations of [fit] on an instance with dictionary [d], in order,
    when the libraries answer [a]: lines 89, 90 and 91-99. *)
Definition fit_script (g : globals) (x y optimizer : value)
    (d : gmap string value) (a : fit_answers) : list entry :=
  [(EGetAttr (g_gpx g) "Dataset", Ok (fa_Dataset a));
   (EGetAttr x "astype", Ok (fa_x_astype a));
   (EGetAttr (g_jnp g) "float32", Ok (fa_float32 a));
   (ECall (fa_x_astype a) [fa_float32 a] [], Ok (fa_X a));
   (EGetAttr y "astype", Ok (fa_y_astype a));
   (EGetAttr (g_jnp g) "float32", Ok (fa_float32' a));
   (ECall (fa_y_astype a) [fa_float32' a] [], Ok (fa_Y a));
   (ECall (fa_Dataset a) [] [("X", fa_X a); ("y", fa_Y a)],
    Ok (fa_dataset a));
   (ECall (attr d "object") [attr d "posterior"]
      [("train_data", fa_dataset a)], Ok (fa_returned a));
   (EGetAttr (g_gpx g) "fit", Ok (fa_gpx_fit a));
   (ECall (fa_gpx_fit a) []
      [("model", attr d "posterior"); ("objective", attr d "object");
       ("train_data", fa_dataset a); ("optim", optimizer);
       ("num_iters", VInt 500); ("key", attr d "key");
       ("verbose", VBool false)], Ok (fa_result a))].

(** The attributes [fit] looks up in the instance before its [n]-th
    operation, in order ([dataset] apart, which it has just assigned). *)
Definition fit_lookups (n : nat) : list string :=
  match n with
  | 8%nat => ["object"; "posterior"]
  | 10%nat => ["posterior"; "object"; "key"]
  | _ => []
  end.

(** What the libraries answer to the eight operations of [predict]. *)
Record predict_answers : Type := Predict_answers {
  pa_predict : value;
  pa_latent_dist : value;
  pa_likelihood : value;
  pa_predictive_dist : value;
  pa_mean : value;
  pa_predictive_mean : value;
  pa_stddev : value;
  pa_predictive_std : value
}.

(** The operations of [predict], in order: lines 114-118. *)
Definition predict_script (x : value) (d : gmap string value)
    (a : predict_answers) : list entry :=
  [(EGetAttr (attr d "opt_posterior") "predict", Ok (pa_predict a));
   (ECall (pa_predict a) [x] [("train_data", attr d "dataset")],
    Ok (pa_latent_dist a));
   (EGetAttr (attr d "opt_posterior") "likelihood", Ok (pa_likelihood a));
   (ECall (pa_likelihood a) [pa_latent_dist a] [],
    Ok (pa_predictive_dist a));
   (EGetAttr (pa_predictive_dist a) "mean", Ok (pa_mean a));
   (ECall (pa_mean a) [] [], Ok (pa_predictive_mean a));
   (EGetAttr (pa_predictive_dist a) "stddev", Ok (pa_stddev a));
   (ECall (pa_stddev a) [] [], Ok (pa_predictive_std a))].

Definition predict_lookups (n : nat) : list string :=
  match n with
  | 0%nat => ["opt_posterior"]
  | 1%nat => ["dataset"]
  | 2%nat => ["opt_posterior"]
  | _ => []
  end.

(** The method stopped because a library raised: the operations [evs] are
    the first [n] of [script], then the next one, which raised [x], and [x]
    is the outcome. *)
Definition stopped_by_library {A : Type} (script evs : list entry)
    (r : result A) : Prop :=
  ∃ (n : nat) (e : event) (a : result value) (x : exn),
    script !! n = Some (e, a)
    ∧ evs = take n script ++ [(e, Raised x)]
    ∧ r = Raised x.

(** The method stopped because Python raised before its [n]-th operation:
    the operations [evs] are the first [n] of [script], and either an
    attribute looked up in the instance at that point is missing, or the
    object of the next operation is a stub of the module. *)
Definition stopped_by_python {A : Type} (d : gmap string value)
    (lookups : nat → list string) (script evs : list entry)
    (r : result A) : Prop :=
  ∃ (n : nat) (x : exn),
    evs = take n script
    ∧ r = Raised x
    ∧ match first_missing d (lookups n) with
      | Some name => x = missing_attribute name
      | None =>
          match script !! n with
          | Some (EGetAttr o name, _) =>
              is_stub o = true ∧ x = no_function_attribute name
          | Some (ECall f _ _, _) =>
              ∃ symbol msg,
                f = VStub symbol msg
                ∧ x = ImportError (stub_message symbol msg)
          | _ => False
          end
      end.

(** Every operation was answered, except possibly the last one, whose
    exception is then the outcome. *)
Definition tidy {A : Type} (evs : list entry) (r : result A) : Prop :=
  Forall answered evs
  ∨ ∃ before e x,
      evs = before ++ [(e, Raised x)] ∧ Forall answered before ∧ r = Raised x.

Definition propagates {W A : Type}
    (c : machine W → machine W * result A) : Prop :=
  ∀ m : machine W, ∃ evs, performed m (c m).1 evs ∧ tidy evs (c m).2.

(** Two machines that differ at most in the answers recorded in their
    traces. *)
Definition same_state {W : Type} (m m' : machine W) : Prop :=
  self m = self m' ∧ world m = world m' ∧ (trace m).*1 = (trace m').*1.

(** Both raise the same exception, or both return, values related by [R]. *)
Definition same_result {A : Type} (R : A → A → Prop) (r r' : result A) : Prop :=
  match r, r' with
  | Ok a, Ok a' => R a a'
  | Raised x, Raised x' => x = x'
  | _, _ => False
  end.

Definition simulates {W A : Type} (R : A → A → Prop)
    (c c' : machine W → machine W * result A) : Prop :=
  ∀ m m' : machine W,
    same_state m m' →
    same_state (c m).1 (c' m').1 ∧ same_result R (c m).2 (c' m').2.

Definition any {A : Type} : A → A → Prop := λ _ _, True.

(** An instance built with the default arguments of [loaded_globals] in
    the world [installed]. *)
Definition built : machine N :=
  (construct installed loaded_globals None None None None None
     (Machine ∅ 14%N [])).1.

(** The same instance after [fit] on the arrays [VObj 100], [VObj 101]
    with the default optimizer. *)
Definition fitted : machine N :=
  (fit installed loaded_globals (VObj 100) (VObj 101)
     (default_optimizer loaded_globals) built).1.

(** Two machines in the same world whose instances hold the same values
    under [names]. *)
Definition agree_on {W : Type} (names : list string) (m m' : machine W) : Prop :=
  world m = world m' ∧ ∀ k : string, k ∈ names → self m !! k = self m' !! k.

Definition returned {A : Type} (r : result A) : Prop :=
  match r with Ok _ => True | Raised _ => False end.

(** [c] consults no attribute of the instance outside [pre]: on two
    machines that agree on [pre] it has the same outcome, performs the same
    operations with the same answers, and leaves machines that agree on
    [pre], and on [post] when it returns. *)
Definition reads {W A : Type} (pre post : list string)
    (c : machine W → machine W * result A) : Prop :=
  ∀ m m' : machine W,
    agree_on pre m m' →
    (c m).2 = (c m').2
    ∧ agree_on pre (c m).1 (c m').1
    ∧ (returned (c m).2 → agree_on post (c m).1 (c m').1)
    ∧ ∃ evs, performed m (c m).1 evs ∧ performed m' (c m').1 evs.

(** The instance [built], but holding [None] as kernel, mean function and
    prior, and left in the world [built] is in. *)
Definition built_bare : machine N :=
  Machine (<["prior" := VNone]>
             (<["mean_fun" := VNone]> (<["kernel" := VNone]> (self built))))
          (world built) [].

(** The world [installed], except that importing gpjax fails inside the
    package, with an exception that is no [ImportError]. *)
Definition gpjax_broken (next : N) (e : event) : N * result value :=
  match e with
  | EImport module _ =>
      if String.prefix "gpjax" module
      then (next, Raised (OtherError "RuntimeError" "jaxlib version mismatch"))
      else installed next e
  | _ => installed next e
  end.

(** The world [installed], except that the optimization fails. *)
Definition fit_failing (next : N) (e : event) : N * result value :=
  match e with
  | ECall _ _ kwargs =>
      if has_kwarg "num_iters" kwargs
      then (next, Raised (OtherError "FloatingPointError" "invalid value"))
      else installed next e
  | _ => installed next e
  end.

(** Entry [a[j][i][k]] of a three-dimensional array. *)
Definition entry3 (a : list (list (list Z))) (j i k : nat) : option Z :=
  plane ← a !! j; row ← plane !! i; row !! k.

(** [a] has shape [(length a, rows, cols)]. *)
Definition has_shape (rows cols : nat) (a : list (list (list Z))) : Prop :=
  Forall (λ plane, length plane = rows
                   ∧ Forall (λ row : list Z, length row = cols) plane) a.

(** ** The evolutionary example of the test script *)

(** [run_moea] and its three callers pass a string and a list to the
    libraries, so their operations are kept one per source expression: each
    constructor below is one call (with the attribute lookups that lead to
    it) of lines 21-62 of [tests/test.py], answered by a handler as
    before. *)
Module Moea.

Inductive op : Type :=
| jnp_full (shape : list Z) (fill_value : Z)
| make_algorithm (class : string) (lb ub : value) (n_objs pop_size : Z)
| PRNGKey (seed : Z)
| StdMOMonitor (record_pf : bool)
| StdWorkflow (algorithm problem : value) (monitors : list value)
| workflow_init (workflow key : value)
| problem_pf (problem state : value)
| IGD (true_pf : value)
| workflow_step (workflow state : value)
| get_child_state (state : value) (name : string)
| fitness (child : value)
| ind_call (ind obj : value)
| print (v : value).

(** Lines 14-19. *)
Definition const_N : Z := 12.
Definition const_M : Z := 3.
Definition POP_SIZE : Z := 100.
Definition LB : Z := 0.
Definition UB : Z := 1.
Definition ITER : nat := 100.

Section Script.

Context {W : Type}.
Variable ext : W → op → W * result value.

Record run : Type := Run {
  outside : W;
  log : list (op * result value)    (* operations so far, oldest first *)
}.

Definition ST (A : Type) : Type := run → run * result A.

Definition ret {A} (a : A) : ST A := λ s, (s, Ok a).
Definition raise {A} (e : exn) : ST A := λ s, (s, Raised e).
Definition bind {A B} (c : ST A) (k : A → ST B) : ST B :=
  λ s, match c s with
       | (s1, Ok a) => k a s1
       | (s1, Raised e) => (s1, Raised e)
       end.

Definition perform (o : op) : ST value :=
  λ s, let '(w, r) := ext (outside s) o in (Run w (log s ++ [(o, r)]), r).

(** [a, b = v] *)
Definition unpack2 (v : value) : ST (value * value) :=
  match v with
  | VTuple [a; b] => ret (a, b)
  | VTuple [] =>
      raise (ValueError "not enough values to unpack (expected 2, got 0)")
  | VTuple [_] =>
      raise (ValueError "not enough values to unpack (expected 2, got 1)")
  | VTuple _ => raise (ValueError "too many values to unpack (expected 2)")
  | _ => raise (TypeError "cannot unpack non-iterable object")
  end.

Notation "x <- c ;; k" := (bind c (λ x, k))
  (at level 100, c at next level, right associativity).
Notation "' ( a , b ) <- c ;; k" := (bind c (λ '(a, b), k))
  (at level 100, c at next level, right associativity).

(** Lines 59-62: the [for] loop, with [n] iterations left. *)
Fixpoint loop (workflow ind : value) (n : nat) (state : value) : ST value :=
  match n with
  | O => ret state
  | S n =>
      state <- perform (workflow_step workflow state) ;;
      child <- perform (get_child_state state "algorithm") ;;
      obj <- perform (fitness child) ;;
      d <- perform (ind_call ind obj) ;;
      _ <- perform (print d) ;;
      loop workflow ind n state
  end.

(** Lines 48-62. *)
Definition run_moea (algorithm problem : value) : ST value :=
  key <- perform (PRNGKey 42) ;;
  monitor <- perform (StdMOMonitor false) ;;
  workflow <- perform (StdWorkflow algorithm problem [monitor]) ;;
  state <- perform (workflow_init workflow key) ;;
  pf <- perform (problem_pf problem state) ;;
  ' (true_pf, state) <- unpack2 pf ;;
  ind <- perform (IGD true_pf) ;;
  _ <- loop workflow ind ITER state ;;
  ret VNone.

(** Lines 21-46; [problem] is the default of [run_moea], evaluated when the
    script is loaded. *)
Definition moea (class : string) (problem : value) : ST value :=
  lb <- perform (jnp_full [const_N] LB) ;;
  ub <- perform (jnp_full [const_N] UB) ;;
  algorithm <- perform (make_algorithm class lb ub const_M POP_SIZE) ;;
  run_moea algorithm problem.

Definition nsga2 : value → ST value := moea "NSGA2".
Definition rm_meda : value → ST value := moea "RMMEDA".
Definition im_moea : value → ST value := moea "IMMOEA".

End Script.

Arguments run : clear implicits.

(** What one iteration got back from the libraries: the new state, its
    child state, the fitness, the distance and what [print] returned. *)
Definition iteration : Type := value * value * value * value * value.

(** The operations of the iterations that got [answers], from [state]. *)
Fixpoint iterations (workflow ind state : value) (answers : list iteration)
    : list (op * result value) :=
  match answers with
  | [] => []
  | (state', child, obj, d, printed) :: answers =>
      [(workflow_step workflow state, Ok state');
       (get_child_state state' "algorithm", Ok child);
       (fitness child, Ok obj);
       (ind_call ind obj, Ok d);
       (print d, Ok printed)]
      ++ iterations workflow ind state' answers
  end.

Definition is_print (en : op * result value) : bool :=
  match en with (print _, Ok _) => true | _ => false end.

(** The number of values printed by the operations [ops]. *)
Definition prints (ops : list (op * result value)) : nat :=
  length (filter (λ en, is_print en = true) ops).

(** [c] prints [n] values when it returns and fewer when it raises. *)
Definition prints_all {W A : Type} (n : nat)
    (c : run W → run W * result A) : Prop :=
  ∀ s : run W,
    ∃ new, log (c s).1 = log s ++ new
           ∧ match (c s).2 with
             | Ok _ => prints new = n
             | Raised _ => (prints new < n)%nat
             end.

(** A world that answers every operation with a fresh object, and
    [problem.pf] with a pair of them. *)
Definition fresh (next : N) (o : op) : N * result value :=
  match o with
  | problem_pf _ _ =>
      ((next + 2)%N, Ok (VTuple [VObj next; VObj (next + 1)%N]))
  | print _ => (next, Ok VNone)
  | _ => ((next + 1)%N, Ok (VObj next))
  end.

(** The same world, in which the workflow fails at its fourth step. *)
Definition failing (next : N) (o : op) : N * result value :=
  match o with
  | workflow_step _ _ =>
      if decide (next = 23%N)
      then (next, Raised (OtherError "FloatingPointError" "nan in fitness"))
      else fresh next o
  | _ => fresh next o
  end.

End Moea.

(** The instance [fitted], but holding [None] as kernel and left in the
    world [fitted] is in. *)
Definition fitted_bare : machine N :=
  Machine (<["kernel" := VNone]> (self fitted)) (world fitted) [].

(** * Properties *)

(** ** How the primitives run *)

Section Run.

Context {W : Type}.
Variable ext : W → event → W * result value.
Implicit Types (m : machine W) (v : value) (e : event).

Lemma bind_Ok_inv {A B} (c : M A) (k : A → M B) m m' (b : B) :
  bind c k m = (m', Ok b) →
  ∃ m1 a, c m = (m1, Ok a) ∧ k a m1 = (m', Ok b).
Proof.
  unfold bind. destruct (c m) as [m1 [a|x]]; [eauto | discriminate].
Qed.

Lemma bind_run_Ok {A B} (c : M A) (k : A → M B) m m1 a :
  c m = (m1, Ok a) → bind c k m = k a m1.
Proof. unfold bind. by intros ->. Qed.



Lemma external_Ok_inv e m m' v :
  external ext e m = (m', Ok v) →
  ext (world m) e = (world m', Ok v)
  ∧ m' = Machine (self m) (world m') (trace m ++ [(e, Ok v)]).
Proof.
  unfold external. destruct (ext (world m) e) as [w r].
  intros [= <- ->]. done.
Qed.

Lemma call_not_stub f args kwargs :
  is_stub f = false → call ext f args kwargs = external ext (ECall f args kwargs).
Proof. by destruct f. Qed.

Lemma getattr_not_stub o name :
  is_stub o = false → getattr ext o name = external ext (EGetAttr o name).
Proof. by destruct o. Qed.

Lemma call_Ok_inv f args kwargs m m' v :
  call ext f args kwargs m = (m', Ok v) →
  is_stub f = false
  ∧ ext (world m) (ECall f args kwargs) = (world m', Ok v)
  ∧ m' = Machine (self m) (world m')
                 (trace m ++ [(ECall f args kwargs, Ok v)]).
Proof.
  destruct (is_stub f) eqn:Hf.
  - by destruct f.
  - rewrite call_not_stub by done. intros H%external_Ok_inv. tauto.
Qed.

Lemma getattr_Ok_inv o name m m' v :
  getattr ext o name m = (m', Ok v) →
  is_stub o = false
  ∧ ext (world m) (EGetAttr o name) = (world m', Ok v)
  ∧ m' = Machine (self m) (world m') (trace m ++ [(EGetAttr o name, Ok v)]).
Proof.
  destruct (is_stub o) eqn:Ho.
  - by destruct o.
  - rewrite getattr_not_stub by done. intros H%external_Ok_inv. tauto.
Qed.

Lemma self_get_Ok_inv name m m' v :
  self_get name m = (m', Ok v) → self m !! name = Some v ∧ m' = m.
Proof.
  unfold self_get. destruct (self m !! name); [|discriminate].
  by intros [= <- <-].
Qed.


Lemma unpack2_Ok_inv r m m' (p : value * value) :
  unpack2 r m = (m', Ok p) → r = VTuple [p.1; p.2] ∧ m' = m.
Proof.
  destruct r as [| | | |[|a [|b [|? ?]]]|]; try discriminate.
  by intros [= <- <-].
Qed.

(** The stubs of lines 16-34: called with any arguments, each raises an
    [ImportError] carrying the original message. *)
Lemma stub_call symbol msg args kwargs m :
  call ext (VStub symbol msg) args kwargs m
  = (m, Raised (ImportError (stub_message symbol msg))).
Proof. reflexivity. Qed.

Lemma append_assoc (s1 s2 s3 : string) :
  (s1 +:+ s2) +:+ s3 = s1 +:+ s2 +:+ s3.
Proof.
  induction s1 as [|c s1 IH]; [reflexivity|].
  change (String c ((s1 +:+ s2) +:+ s3) = String c (s1 +:+ s2 +:+ s3)).
  by rewrite IH.
Qed.

Lemma stub_message_contains symbol msg :
  contains (stub_message symbol msg) msg.
Proof.
  exists (symbol +:+ " requires gpjax, but got " +:+ dquote),
         (dquote +:+ " when importing").
  unfold stub_message. by rewrite !append_assoc.
Qed.

End Run.

(** ** Loading the module without gpjax *)

(** Whatever the world, when the first four imports succeed and
    [import gpjax] raises an [ImportError], the class body calls the stub
    [RBF] for the default of [kernel] and the module load raises. *)
Lemma module_load_import_failure {W : Type}
    (ext : W → event → W * result value) (m : machine W)
    (w1 w2 w3 w4 w5 : W) (jax jr jnp ox : value) (x : exn) :
  ext (world m) (EImport "jax" None) = (w1, Ok jax) →
  ext w1 (EImport "jax.random" None) = (w2, Ok jr) →
  ext w2 (EImport "jax.numpy" None) = (w3, Ok jnp) →
  ext w3 (EImport "optax" None) = (w4, Ok ox) →
  ext w4 (EImport "gpjax" None) = (w5, Raised x) →
  isinstance_ImportError x = true →
  (module_load ext m).2 = Raised (ImportError (stub_message "RBF" (str x))).
Proof.
  intros H1 H2 H3 H4 H5 Hx.
  unfold module_load, try_except_ImportError, import_gpjax, bind, external.
  cbn [world]. rewrite H1. cbn [world]. rewrite H2. cbn [world]. rewrite H3.
  cbn [world]. rewrite H4. cbn [world]. rewrite H5, Hx. reflexivity.
Qed.

(** A module whose [gpx] is the stub cannot build an instance either:
    [gpx.gps] is an attribute lookup on a function, not a call of it. *)
Lemma init_with_stub_gpx {W : Type} (ext : W → event → W * result value)
    (g : globals) (msg : string) (kernel meanfun likelihood object key : value)
    (m : machine W) :
  g_gpx g = stub_gpx msg →
  (init ext g kernel meanfun likelihood object key m).2
  = Raised (AttributeError "'function' object has no attribute 'gps'").
Proof. unfold init. by intros ->. Qed.

(** C1 (the code departs from it).  In a world without gpjax the failure is
    not deferred: loading the module performs the five imports and then
    raises the [ImportError] of the stub [RBF], called by the class body for
    the default argument of [__init__], so the class is never defined and no
    instance can be constructed. *)
Theorem module_load_without_gpjax_raises :
  module_load gpjax_missing boot
  = (Machine ∅ 4%N
       [(EImport "jax" None, Ok (VObj 0));
        (EImport "jax.random" None, Ok (VObj 1));
        (EImport "jax.numpy" None, Ok (VObj 2));
        (EImport "optax" None, Ok (VObj 3));
        (EImport "gpjax" None,
         Raised (ModuleNotFoundError "No module named 'gpjax'"))],
     Raised (ImportError (stub_message "RBF" "No module named 'gpjax'"))).
Proof. reflexivity. Qed.

(** ** Which attributes a method assigns *)

Create HintDb frame.

Section Frame.

Context {W : Type}.
Variable ext : W → event → W * result value.
Implicit Types (m : machine W) (names : list string).

Lemma frames_ret {A} names (a : A) : frames names (ret (W:=W) a).
Proof. by intros m k _. Qed.

Lemma frames_raise {A} names x : frames names (raise (W:=W) (A:=A) x).
Proof. by intros m k _. Qed.

Lemma frames_external names e : frames names (external ext e).
Proof.
  intros m k _. unfold external. by destruct (ext (world m) e).
Qed.

Lemma frames_call names f args kwargs : frames names (call ext f args kwargs).
Proof. destruct f; simpl; auto using frames_external, frames_raise. Qed.

Lemma frames_getattr names o name : frames names (getattr ext o name).
Proof. destruct o; simpl; auto using frames_external, frames_raise. Qed.

Lemma frames_self_get names name : frames names (self_get (W:=W) name).
Proof. intros m k _. unfold self_get. by destruct (self m !! name). Qed.

Lemma frames_self_set names name v :
  name ∈ names → frames names (self_set (W:=W) name v).
Proof.
  intros Hin m k Hk. unfold self_set. cbn [fst self].
  apply lookup_insert_ne. by intros ->.
Qed.

Lemma frames_unpack2 names r : frames names (unpack2 (W:=W) r).
Proof.
  destruct r as [| | | |[|a [|b [|? ?]]]|]; cbn [unpack2];
    auto using frames_ret, frames_raise.
Qed.

Lemma frames_bind {A B} names (c : @M W A) (k : A → @M W B) :
  frames names c → (∀ a, frames names (k a)) → frames names (bind c k).
Proof.
  intros Hc Hk m key Hkey. specialize (Hc m key Hkey).
  unfold bind. destruct (c m) as [m1 [a|x]]; cbn [fst] in *; [|done].
  by rewrite (Hk a m1 key Hkey).
Qed.

Lemma frames_nothing {A} (c : @M W A) m : frames [] c → self (c m).1 = self m.
Proof. intros Hc. apply map_eq. intros k. apply Hc. by apply not_elem_of_nil. Qed.

End Frame.

#[export] Hint Resolve frames_ret frames_raise frames_external frames_call
  frames_getattr frames_self_get frames_unpack2 : frame.
#[export] Hint Extern 2 (frames _ (bind _ _)) =>
  apply frames_bind; [|intros] : frame.
#[export] Hint Extern 2 (frames _ (self_set _ _)) =>
  apply frames_self_set; set_solver : frame.
#[export] Hint Extern 3 (frames _ (let '(_, _) := ?p in _)) =>
  destruct p : frame.

Section Methods_frame.

Context {W : Type}.
Variables (ext : W → event → W * result value) (g : globals).

Lemma init_frames kernel meanfun likelihood object key :
  frames construction_attrs
         (init ext g kernel meanfun likelihood object key).
Proof. unfold init, construction_attrs. auto 20 with frame. Qed.

Lemma fit_objective_frames names : frames names (fit_objective ext).
Proof. unfold fit_objective. auto 20 with frame. Qed.

Lemma fit_optimise_frames optimizer :
  frames ["opt_posterior"; "history"] (fit_optimise ext g optimizer).
Proof. unfold fit_optimise. auto 20 with frame. Qed.

Lemma fit_dataset_frames names x y : frames names (fit_dataset ext g x y).
Proof. unfold fit_dataset. auto 20 with frame. Qed.

Lemma fit_frames x y optimizer :
  frames fit_attrs (fit ext g x y optimizer).
Proof.
  unfold fit, fit_optimise, fit_attrs.
  auto 20 using fit_dataset_frames, fit_objective_frames with frame.
Qed.

Lemma predict_frames x : frames [] (predict ext x).
Proof. unfold predict. auto 20 with frame. Qed.

End Methods_frame.

(** ** Runs that return *)

Section Inversion.

Context {W : Type}.
Variable ext : W → event → W * result value.
Implicit Types (m : machine W) (v : value) (e : event).

Lemma external_returns e m m' v :
  external ext e m = (m', Ok v) →
  ∃ w, ext (world m) e = (w, Ok v)
       ∧ m' = Machine (self m) w (trace m ++ [(e, Ok v)]).
Proof. intros [H ->]%external_Ok_inv. eauto. Qed.

Lemma call_returns f args kwargs m m' v :
  call ext f args kwargs m = (m', Ok v) →
  is_stub f = false
  ∧ ∃ w, ext (world m) (ECall f args kwargs) = (w, Ok v)
         ∧ m' = Machine (self m) w (trace m ++ [(ECall f args kwargs, Ok v)]).
Proof. intros (Hf & H & ->)%call_Ok_inv. eauto. Qed.

Lemma getattr_returns o name m m' v :
  getattr ext o name m = (m', Ok v) →
  is_stub o = false
  ∧ ∃ w, ext (world m) (EGetAttr o name) = (w, Ok v)
         ∧ m' = Machine (self m) w (trace m ++ [(EGetAttr o name, Ok v)]).
Proof. intros (Ho & H & ->)%getattr_Ok_inv. eauto. Qed.

Lemma self_set_returns name v m m' (r : result unit) :
  self_set name v m = (m', r) →
  m' = Machine (<[name := v]> (self m)) (world m) (trace m).
Proof. by intros [= <- _]. Qed.

End Inversion.

(** Takes apart a hypothesis [H] saying that a run returned, primitive by
    primitive, and names the machines in between. *)
Ltac invert_run H :=
  cbn [world self trace fst snd] in H;
  lazymatch type of H with
  | bind _ _ _ = (_, Ok _) =>
      let H1 := fresh "Hrun" in
      apply bind_Ok_inv in H as (? & ? & H1 & H); invert_run H1; invert_run H
  | external _ _ _ = (_, Ok _) =>
      apply external_returns in H as (? & H & ->)
  | call _ _ _ _ _ = (_, Ok _) =>
      let Hs := fresh "Hstub" in
      apply call_returns in H as (Hs & ? & H & ->)
  | getattr _ _ _ _ = (_, Ok _) =>
      let Hs := fresh "Hstub" in
      apply getattr_returns in H as (Hs & ? & H & ->)
  | self_get _ _ = (_, Ok _) => apply self_get_Ok_inv in H as [H ->]
  | self_set _ _ _ = (_, _) => apply self_set_returns in H as ->
  | unpack2 _ _ = (_, Ok _) =>
      apply unpack2_Ok_inv in H as [-> ->]; cbn [fst snd] in *
  | ret _ _ = (_, Ok _) => injection H as <- <-
  | (let '(_, _) := ?p in _) _ = (_, Ok _) => destruct p; invert_run H
  | _ => idtac
  end.

Section Returning.

Context {W : Type}.
Variables (ext : W → event → W * result value) (g : globals).
Implicit Types (m : machine W).

Lemma fit_dataset_returns x y m m1 dataset :
  fit_dataset ext g x y m = (m1, Ok dataset) →
  ∃ Dataset x_astype y_astype float32 float32' X Y,
    self m1 = self m
    ∧ performed m m1
        [(EGetAttr (g_gpx g) "Dataset", Ok Dataset);
         (EGetAttr x "astype", Ok x_astype);
         (EGetAttr (g_jnp g) "float32", Ok float32);
         (ECall x_astype [float32] [], Ok X);
         (EGetAttr y "astype", Ok y_astype);
         (EGetAttr (g_jnp g) "float32", Ok float32');
         (ECall y_astype [float32'] [], Ok Y);
         (ECall Dataset [] [("X", X); ("y", Y)], Ok dataset)].
Proof.
  unfold fit_dataset, performed. intros H. invert_run H.
  cbn [self trace]. rewrite <- !app_assoc. cbn [app]. eauto 10.
Qed.

Lemma fit_returns x y optimizer m m' v :
  fit ext g x y optimizer m = (m', Ok v) →
  ∃ m1 dataset object posterior key r gpx_fit opt_posterior history,
    fit_dataset ext g x y m = (m1, Ok dataset)
    ∧ self m !! "object" = Some object
    ∧ self m !! "posterior" = Some posterior
    ∧ self m !! "key" = Some key
    ∧ v = VNone
    ∧ self m' = <["history" := history]>
                  (<["opt_posterior" := opt_posterior]>
                     (<["dataset" := dataset]> (self m)))
    ∧ performed m1 m'
        [(ECall object [posterior] [("train_data", dataset)], Ok r);
         (EGetAttr (g_gpx g) "fit", Ok gpx_fit);
         (ECall gpx_fit []
            [("model", posterior); ("objective", object);
             ("train_data", dataset); ("optim", optimizer);
             ("num_iters", VInt 500); ("key", key);
             ("verbose", VBool false)],
          Ok (VTuple [opt_posterior; history]))].
Proof.
  unfold fit, fit_objective, fit_optimise, performed. intros H.
  invert_run H. cbn [world self trace] in *.
  destruct (fit_dataset_returns _ _ _ _ _ Hrun)
    as (? & ? & ? & ? & ? & ? & ? & Hself & _).
  rewrite Hself in *.
  repeat match goal with
  | Hl : <[_ := _]> _ !! _ = Some _ |- _ =>
      first [ rewrite lookup_insert_eq in Hl; injection Hl as <-
            | rewrite lookup_insert_ne in Hl by done ]
  end.
  repeat match goal with
  | H1 : ?l = Some _, H2 : ?l = Some _ |- _ =>
      rewrite H1 in H2; injection H2 as <-
  end.
  cbn [self trace]. rewrite <- !app_assoc. cbn [app].
  eexists _, _, _, _, _, _, _, _, _. repeat split; eauto.
Qed.

Lemma predict_returns x m m' v :
  predict ext x m = (m', Ok v) →
  ∃ opt_posterior dataset posterior_predict latent_dist likelihood
    predictive_dist dist_mean predictive_mean dist_stddev predictive_std,
    self m !! "opt_posterior" = Some opt_posterior
    ∧ self m !! "dataset" = Some dataset
    ∧ v = VTuple [predictive_dist; predictive_mean; predictive_std]
    ∧ performed m m'
        [(EGetAttr opt_posterior "predict", Ok posterior_predict);
         (ECall posterior_predict [x] [("train_data", dataset)],
          Ok latent_dist);
         (EGetAttr opt_posterior "likelihood", Ok likelihood);
         (ECall likelihood [latent_dist] [], Ok predictive_dist);
         (EGetAttr predictive_dist "mean", Ok dist_mean);
         (ECall dist_mean [] [], Ok predictive_mean);
         (EGetAttr predictive_dist "stddev", Ok dist_stddev);
         (ECall dist_stddev [] [], Ok predictive_std)].
Proof.
  unfold predict, performed. intros H. invert_run H.
  cbn [world self trace] in *.
  repeat match goal with
  | H1 : ?l = Some _, H2 : ?l = Some _ |- _ =>
      rewrite H1 in H2; injection H2 as <-
  end.
  cbn [self trace]. rewrite <- !app_assoc. cbn [app].
  eexists _, _, _, _, _, _, _, _, _, _. repeat split; eauto.
Qed.

End Returning.

(** ** Exceptions of the world outside *)

Create HintDb propagate.

Section Propagation.

Context {W : Type}.
Variable ext : W → event → W * result value.
Implicit Types (m : machine W).

Lemma tidy_returned {A} evs (a : A) : tidy evs (Ok a) → Forall answered evs.
Proof. by intros [H|(? & ? & ? & _ & _ & ?)]. Qed.

Lemma propagates_silent {A} (c : @M W A) :
  (∀ m, trace (c m).1 = trace m) → propagates c.
Proof.
  intros Hc m. exists []. split.
  - unfold performed. by rewrite Hc, app_nil_r.
  - by left.
Qed.

Lemma propagates_ret {A} (a : A) : propagates (ret (W:=W) a).
Proof. by apply propagates_silent. Qed.

Lemma propagates_raise {A} x : propagates (raise (W:=W) (A:=A) x).
Proof. by apply propagates_silent. Qed.

Lemma propagates_self_get name : propagates (self_get (W:=W) name).
Proof.
  apply propagates_silent. intros m. unfold self_get.
  by destruct (self m !! name).
Qed.

Lemma propagates_self_set name v : propagates (self_set (W:=W) name v).
Proof. by apply propagates_silent. Qed.

Lemma propagates_unpack2 r : propagates (unpack2 (W:=W) r).
Proof.
  apply propagates_silent. intros m.
  by destruct r as [| | | |[|a [|b [|? ?]]]|].
Qed.

Lemma propagates_external e : propagates (external ext e).
Proof.
  intros m. unfold external. destruct (ext (world m) e) as [w [v|x]].
  - exists [(e, Ok v)]. split; [done|]. left. by repeat constructor.
  - exists [(e, Raised x)]. split; [done|]. right. by exists [], e, x.
Qed.

Lemma propagates_call f args kwargs : propagates (call ext f args kwargs).
Proof.
  destruct f; cbn [call]; auto using propagates_external, propagates_raise.
Qed.

Lemma propagates_getattr o name : propagates (getattr ext o name).
Proof.
  destruct o; cbn [getattr];
    auto using propagates_external, propagates_raise.
Qed.

Lemma propagates_bind {A B} (c : @M W A) (k : A → @M W B) :
  propagates c → (∀ a, propagates (k a)) → propagates (bind c k).
Proof.
  intros Hc Hk m. destruct (Hc m) as (evs1 & Hp1 & Ht1).
  unfold bind. destruct (c m) as [m1 [a|x]]; cbn [fst snd] in *.
  - destruct (Hk a m1) as (evs2 & Hp2 & Ht2).
    exists (evs1 ++ evs2). split.
    + unfold performed in *. by rewrite Hp2, Hp1, app_assoc.
    + apply tidy_returned in Ht1.
      destruct Ht2 as [H|(before & e & x & -> & H & ->)].
      * left. by apply Forall_app.
      * right. exists (evs1 ++ before), e, x.
        rewrite app_assoc. by rewrite Forall_app.
  - exists evs1. split; [done|].
    destruct Ht1 as [H|(before & e & x' & -> & H & [= ->])];
      [by left | right; by exists before, e, x'].
Qed.

Lemma tidy_unhandled {A} evs (r : result A) : tidy evs r → unhandled evs r.
Proof.
  intros Ht before after e x ->.
  destruct Ht as [H|(before' & e' & x' & Heq & H & ->)].
  - apply Forall_app in H as [_ H]. by inversion H.
  - destruct after as [|last after _] using rev_ind.
    + by apply app_inj_tail in Heq as [_ [= _ ->]].
    + rewrite app_comm_cons, app_assoc in Heq.
      apply app_inj_tail in Heq as [<- _].
      apply Forall_app in H as [_ H]. by inversion H.
Qed.

End Propagation.

#[export] Hint Resolve propagates_ret propagates_raise propagates_self_get
  propagates_self_set propagates_unpack2 propagates_external propagates_call
  propagates_getattr : propagate.
#[export] Hint Extern 2 (propagates (bind _ _)) =>
  apply propagates_bind; [|intros] : propagate.
#[export] Hint Extern 3 (propagates (let '(_, _) := ?p in _)) =>
  destruct p : propagate.

Section Methods_propagate.

Context {W : Type}.
Variables (ext : W → event → W * result value) (g : globals).

Lemma fit_propagates x y optimizer : propagates (fit ext g x y optimizer).
Proof.
  unfold fit, fit_dataset, fit_objective, fit_optimise.
  auto 30 with propagate.
Qed.

Lemma predict_propagates x : propagates (predict ext x).
Proof. unfold predict. auto 30 with propagate. Qed.

End Methods_propagate.

(** ** The answer of the objective *)

Create HintDb simulate.

Section Simulation.

Context {W : Type}.
Variable ext : W → event → W * result value.
Variable answer : value.
Implicit Types (m : machine W).

Local Abbreviation ext' := (objective_returning answer ext).

Lemma same_state_refl m : same_state m m.
Proof. done. Qed.

Lemma simulates_pure {A} (c : @M W A) :
  (∀ m m', self m = self m' →
     (c m).2 = (c m').2 ∧ self (c m).1 = self (c m').1) →
  (∀ m, world (c m).1 = world m ∧ trace (c m).1 = trace m) →
  simulates eq c c.
Proof.
  intros Hself Hrest m m' (Hs & Hw & Ht).
  destruct (Hself m m' Hs) as [Hr Hs'].
  destruct (Hrest m) as [Hw1 Ht1], (Hrest m') as [Hw2 Ht2].
  unfold same_state. rewrite Hw1, Hw2, Ht1, Ht2, Hr. split; [done|].
  unfold same_result. by destruct ((c m').2).
Qed.

Lemma simulates_ret {A} (a : A) : simulates eq (ret (W:=W) a) (ret a).
Proof. by apply simulates_pure. Qed.

Lemma simulates_raise {A} x :
  simulates eq (raise (W:=W) (A:=A) x) (raise x).
Proof. by apply simulates_pure. Qed.

Lemma simulates_self_get name :
  simulates eq (self_get (W:=W) name) (self_get name).
Proof.
  apply simulates_pure; unfold self_get.
  - intros m m' Hs. rewrite Hs. by destruct (self m' !! name).
  - intros m. by destruct (self m !! name).
Qed.

Lemma simulates_self_set name v :
  simulates eq (self_set (W:=W) name v) (self_set name v).
Proof.
  apply simulates_pure; unfold self_set; cbn [fst snd self]; [|done].
  by intros m m' ->.
Qed.

Lemma simulates_unpack2 r : simulates eq (unpack2 (W:=W) r) (unpack2 r).
Proof.
  destruct r as [| | | |[|a [|b [|? ?]]]|]; cbn [unpack2];
    auto using simulates_ret, simulates_raise.
Qed.

Lemma simulates_external e :
  is_objective_call e = false →
  simulates eq (external ext e) (external ext' e).
Proof.
  intros He m m' (Hs & Hw & Ht). unfold external, objective_returning.
  rewrite He, <- Hw. destruct (ext (world m) e) as [w r].
  cbn [fst snd]. split.
  - unfold same_state. cbn [self world trace].
    by rewrite !fmap_app, Ht.
  - unfold same_result. by destruct r.
Qed.

Lemma simulates_external_any e :
  simulates any (external ext e) (external ext' e).
Proof.
  intros m m' (Hs & Hw & Ht). unfold external, objective_returning.
  rewrite <- Hw.
  destruct (is_objective_call e), (ext (world m) e) as [w [v|x]];
    cbn [fst snd]; (split; [|done]);
    unfold same_state; cbn [self world trace]; by rewrite !fmap_app, Ht.
Qed.

Lemma simulates_getattr o name :
  simulates eq (getattr ext o name) (getattr ext' o name).
Proof.
  destruct o; cbn [getattr];
    auto using simulates_external, simulates_raise.
Qed.

Lemma simulates_call f args kwargs :
  is_objective_call (ECall f args kwargs) = false →
  simulates eq (call ext f args kwargs) (call ext' f args kwargs).
Proof.
  intros He.
  destruct f; cbn [call]; auto using simulates_external, simulates_raise.
Qed.

Lemma simulates_call_any f args kwargs :
  simulates any (call ext f args kwargs) (call ext' f args kwargs).
Proof.
  destruct f; cbn [call]; auto using simulates_external_any.
  intros m m' H. by split.
Qed.

Lemma simulates_bind {A B} (R : A → A → Prop) (R' : B → B → Prop)
    (c c' : @M W A) (k k' : A → @M W B) :
  simulates R c c' →
  (∀ a a', R a a' → simulates R' (k a) (k' a')) →
  simulates R' (bind c k) (bind c' k').
Proof.
  intros Hc Hk m m' Hm. destruct (Hc m m' Hm) as [Hm1 Hr].
  unfold bind.
  destruct (c m) as [m1 [a|x]], (c' m') as [m1' [a'|x']];
    cbn [fst snd same_result] in *; try done.
  by apply Hk.
Qed.

Lemma simulates_bind_eq {A B} (R' : B → B → Prop)
    (c c' : @M W A) (k k' : A → @M W B) :
  simulates eq c c' →
  (∀ a, simulates R' (k a) (k' a)) →
  simulates R' (bind c k) (bind c' k').
Proof.
  intros Hc Hk. apply (simulates_bind eq); [done|]. by intros a ? <-.
Qed.

End Simulation.

#[export] Hint Resolve simulates_ret simulates_raise simulates_self_get
  simulates_self_set simulates_unpack2 simulates_getattr
  simulates_call_any : simulate.
#[export] Hint Extern 2 (simulates eq (call _ _ _ _) (call _ _ _ _)) =>
  apply simulates_call; reflexivity : simulate.
#[export] Hint Extern 2 (simulates _ (bind _ _) (bind _ _)) =>
  apply simulates_bind_eq; [|intros] : simulate.
#[export] Hint Extern 3
  (simulates _ (let '(_, _) := ?p in _) (let '(_, _) := ?p in _)) =>
  destruct p : simulate.

Section Methods_simulate.

Context {W : Type}.
Variables (ext : W → event → W * result value) (g : globals).
Variable answer : value.

Local Abbreviation ext' := (objective_returning answer ext).

Lemma fit_dataset_simulates x y :
  simulates eq (fit_dataset ext g x y) (fit_dataset ext' g x y).
Proof. unfold fit_dataset. auto 20 with simulate. Qed.

Lemma fit_objective_simulates :
  simulates any (fit_objective ext) (fit_objective ext').
Proof. unfold fit_objective. auto 20 with simulate. Qed.

Lemma fit_optimise_simulates optimizer :
  simulates eq (fit_optimise ext g optimizer) (fit_optimise ext' g optimizer).
Proof. unfold fit_optimise. auto 20 with simulate. Qed.

Lemma fit_simulates x y optimizer :
  simulates eq (fit ext g x y optimizer) (fit ext' g x y optimizer).
Proof.
  unfold fit.
  apply simulates_bind_eq; [apply fit_dataset_simulates | intros dataset].
  apply simulates_bind_eq; [apply simulates_self_set | intros _].
  apply (simulates_bind any); [apply fit_objective_simulates | intros _ _ _].
  apply fit_optimise_simulates.
Qed.

End Methods_simulate.

(** ** The claims about [fit] and [predict] *)

(** C2.  Whenever line 89 of [fit] evaluates, it looks up [astype] on [x]
    and on [y], calls each with what [jnp.float32] evaluates to, calls
    [gpx.Dataset] with the two cast arrays as [X] and [y], and the dataset
    this call returned is what [self.dataset] holds when [fit] is over,
    whatever it held before and however the rest of [fit] ends. *)
Theorem fit_rebuilds_dataset {W : Type} (ext : W → event → W * result value)
    (g : globals) (x y optimizer : value) (m m1 : machine W) (dataset : value) :
  fit_dataset ext g x y m = (m1, Ok dataset) →
  (∃ Dataset x_astype y_astype float32 float32' X Y,
     performed m m1
       [(EGetAttr (g_gpx g) "Dataset", Ok Dataset);
        (EGetAttr x "astype", Ok x_astype);
        (EGetAttr (g_jnp g) "float32", Ok float32);
        (ECall x_astype [float32] [], Ok X);
        (EGetAttr y "astype", Ok y_astype);
        (EGetAttr (g_jnp g) "float32", Ok float32');
        (ECall y_astype [float32'] [], Ok Y);
        (ECall Dataset [] [("X", X); ("y", Y)], Ok dataset)])
  ∧ self (fit ext g x y optimizer m).1 !! "dataset" = Some dataset.
Proof.
  intros H. split.
  - destruct (fit_dataset_returns _ _ _ _ _ _ _ H)
      as (D & xa & ya & f & f' & X & Y & _ & Hp).
    by exists D, xa, ya, f, f', X, Y.
  - unfold fit. rewrite (bind_run_Ok _ _ _ _ _ H).
    unfold bind at 1, self_set.
    assert (frames ["opt_posterior"; "history"]
              (bind (fit_objective ext) (λ _, fit_optimise ext g optimizer)))
      as Hrest.
    { apply frames_bind; [apply fit_objective_frames|].
      intros _. apply fit_optimise_frames. }
    rewrite Hrest
      by (by intros [?|[?|?%elem_of_nil]%elem_of_cons]%elem_of_cons).
    apply lookup_insert_eq.
Qed.

Lemma fit_rebuilds_dataset_witness :
  fit_dataset installed loaded_globals (VObj 100) (VObj 101) built
  = ((fit_dataset installed loaded_globals (VObj 100) (VObj 101) built).1,
     Ok (VObj 25))
  ∧ self (fit installed loaded_globals (VObj 100) (VObj 101) (VObj 13)
            built).1 !! "dataset" = Some (VObj 25).
Proof.
  assert (fit_dataset installed loaded_globals (VObj 100) (VObj 101) built
          = ((fit_dataset installed loaded_globals (VObj 100) (VObj 101)
                built).1, Ok (VObj 25))) as H by (vm_compute; reflexivity).
  split; [exact H|].
  exact (proj2 (fit_rebuilds_dataset installed loaded_globals (VObj 100)
                  (VObj 101) (VObj 13) built _ (VObj 25) H)).
Defined.

(** C3.  A [fit] that returns has ended with the lookup of [gpx.fit] and one
    call of it, whose keywords are the posterior, the objective and the key
    of the instance, the dataset just built, the [optimizer] argument and
    [num_iters=500], [verbose=False]; the call returned a pair, whose
    components are [self.opt_posterior] and [self.history] afterwards. *)
Theorem fit_delegates_to_gpx_fit {W : Type}
    (ext : W → event → W * result value) (g : globals)
    (x y optimizer : value) (m m' : machine W) (v : value) :
  fit ext g x y optimizer m = (m', Ok v) →
  ∃ before gpx_fit model objective train_data key opt_posterior history,
    performed m m'
      (before ++
       [(EGetAttr (g_gpx g) "fit", Ok gpx_fit);
        (ECall gpx_fit []
           [("model", model); ("objective", objective);
            ("train_data", train_data); ("optim", optimizer);
            ("num_iters", VInt 500); ("key", key); ("verbose", VBool false)],
         Ok (VTuple [opt_posterior; history]))])
    ∧ self m !! "posterior" = Some model
    ∧ self m !! "object" = Some objective
    ∧ self m !! "key" = Some key
    ∧ self m' !! "dataset" = Some train_data
    ∧ self m' !! "opt_posterior" = Some opt_posterior
    ∧ self m' !! "history" = Some history.
Proof.
  intros H.
  destruct (fit_returns _ _ _ _ _ _ _ _ H)
    as (m1 & dataset & object & posterior & key & r & gpx_fit & opt_posterior
        & history & Hd & Ho & Hp & Hk & _ & Hself & Hperf).
  destruct (fit_dataset_returns _ _ _ _ _ _ _ Hd)
    as (D & xa & ya & f & f' & X & Y & _ & Hperf1).
  exists ([(EGetAttr (g_gpx g) "Dataset", Ok D);
           (EGetAttr x "astype", Ok xa);
           (EGetAttr (g_jnp g) "float32", Ok f);
           (ECall xa [f] [], Ok X);
           (EGetAttr y "astype", Ok ya);
           (EGetAttr (g_jnp g) "float32", Ok f');
           (ECall ya [f'] [], Ok Y);
           (ECall D [] [("X", X); ("y", Y)], Ok dataset);
           (ECall object [posterior] [("train_data", dataset)], Ok r)]),
    gpx_fit, posterior, object, dataset, key, opt_posterior, history.
  repeat split; try done.
  - unfold performed in *. rewrite Hperf, Hperf1.
    by rewrite <- app_assoc.
  - rewrite Hself. by simplify_map_eq.
  - rewrite Hself. by simplify_map_eq.
  - rewrite Hself. by simplify_map_eq.
Qed.

Lemma fit_delegates_to_gpx_fit_witness :
  fit installed loaded_globals (VObj 100) (VObj 101) (VObj 13) built
  = (fitted, Ok VNone)
  ∧ self fitted !! "opt_posterior" = Some (VObj 28)
  ∧ self fitted !! "history" = Some (VObj 29).
Proof.
  assert (fit installed loaded_globals (VObj 100) (VObj 101) (VObj 13) built
          = (fitted, Ok VNone)) as H by (vm_compute; reflexivity).
  split; [exact H|].
  destruct (fit_delegates_to_gpx_fit _ _ _ _ _ _ _ _ H)
    as (? & ? & ? & ? & ? & ? & ? & ? & _).
  split; vm_compute; reflexivity.
Defined.

(** C4.  A [predict] that returns has looked up [predict] on the optimized
    posterior and called it on [x] with [train_data] the stored dataset,
    looked up [likelihood] on the optimized posterior and called it on the
    latent distribution, and called [mean] and [stddev] of the distribution
    that gave; it returns the tuple of that distribution, its mean and its
    standard deviation. *)
Theorem predict_returns_triple {W : Type}
    (ext : W → event → W * result value) (x : value) (m m' : machine W)
    (v : value) :
  predict ext x m = (m', Ok v) →
  ∃ opt_posterior dataset posterior_predict latent_dist likelihood
    predictive_dist dist_mean predictive_mean dist_stddev predictive_std,
    self m !! "opt_posterior" = Some opt_posterior
    ∧ self m !! "dataset" = Some dataset
    ∧ v = VTuple [predictive_dist; predictive_mean; predictive_std]
    ∧ performed m m'
        [(EGetAttr opt_posterior "predict", Ok posterior_predict);
         (ECall posterior_predict [x] [("train_data", dataset)],
          Ok latent_dist);
         (EGetAttr opt_posterior "likelihood", Ok likelihood);
         (ECall likelihood [latent_dist] [], Ok predictive_dist);
         (EGetAttr predictive_dist "mean", Ok dist_mean);
         (ECall dist_mean [] [], Ok predictive_mean);
         (EGetAttr predictive_dist "stddev", Ok dist_stddev);
         (ECall dist_stddev [] [], Ok predictive_std)].
Proof. apply predict_returns. Qed.

Lemma predict_returns_triple_witness :
  predict installed (VObj 200) fitted
  = ((predict installed (VObj 200) fitted).1,
     Ok (VTuple [VObj 33; VObj 35; VObj 37]))
  ∧ self fitted !! "opt_posterior" = Some (VObj 28).
Proof.
  assert (predict installed (VObj 200) fitted
          = ((predict installed (VObj 200) fitted).1,
             Ok (VTuple [VObj 33; VObj 35; VObj 37]))) as H
    by (vm_compute; reflexivity).
  split; [exact H|].
  destruct (predict_returns_triple _ _ _ _ _ H)
    as (? & ? & ? & ? & ? & ? & ? & ? & ? & ? & _).
  vm_compute; reflexivity.
Defined.

(** C6.  The operations of a [fit] that returns are exactly the eight of
    line 89, one call of the objective, on the posterior the instance held
    when [fit] began (the one not yet optimized) with the dataset just
    built as [train_data], and then the lookup and the call of [gpx.fit]:
    the objective is evaluated once, before the optimization.  What it
    returned is dropped: its value [r] occurs in no later operation, and in
    a world that only differs in that the objective returns [answer], [fit]
    returns the same value, leaves the same attributes and the same world,
    and performs the same operations with the same arguments in the same
    order. *)
Theorem fit_objective_once_discarded {W : Type}
    (ext : W → event → W * result value) (g : globals)
    (x y optimizer : value) (m m' : machine W) (v answer : value) :
  fit ext g x y optimizer m = (m', Ok v) →
  (∃ Dataset x_astype y_astype float32 float32' X Y dataset object posterior
     key r gpx_fit opt_posterior history,
     self m !! "object" = Some object
     ∧ self m !! "posterior" = Some posterior
     ∧ self m !! "key" = Some key
     ∧ self m' !! "dataset" = Some dataset
     ∧ performed m m'
         [(EGetAttr (g_gpx g) "Dataset", Ok Dataset);
          (EGetAttr x "astype", Ok x_astype);
          (EGetAttr (g_jnp g) "float32", Ok float32);
          (ECall x_astype [float32] [], Ok X);
          (EGetAttr y "astype", Ok y_astype);
          (EGetAttr (g_jnp g) "float32", Ok float32');
          (ECall y_astype [float32'] [], Ok Y);
          (ECall Dataset [] [("X", X); ("y", Y)], Ok dataset);
          (ECall object [posterior] [("train_data", dataset)], Ok r);
          (EGetAttr (g_gpx g) "fit", Ok gpx_fit);
          (ECall gpx_fit []
             [("model", posterior); ("objective", object);
              ("train_data", dataset); ("optim", optimizer);
              ("num_iters", VInt 500); ("key", key);
              ("verbose", VBool false)],
           Ok (VTuple [opt_posterior; history]))])
  ∧ (fit (objective_returning answer ext) g x y optimizer m).2 = Ok v
  ∧ self (fit (objective_returning answer ext) g x y optimizer m).1 = self m'
  ∧ world (fit (objective_returning answer ext) g x y optimizer m).1
    = world m'
  ∧ (trace (fit (objective_returning answer ext) g x y optimizer m).1).*1
    = (trace m').*1.
Proof.
  intros H. split.
  - destruct (fit_returns _ _ _ _ _ _ _ _ H)
      as (m1 & dataset & object & posterior & key & r & gpx_fit
          & opt_posterior & history & Hd & Ho & Hp & Hk & _ & Hself & Hperf).
    destruct (fit_dataset_returns _ _ _ _ _ _ _ Hd)
      as (D & xa & ya & f & f' & X & Y & _ & Hperf1).
    exists D, xa, ya, f, f', X, Y, dataset, object, posterior, key, r,
      gpx_fit, opt_posterior, history.
    split; [done|]. split; [done|]. split; [done|]. split.
    + rewrite Hself. rewrite !lookup_insert_ne by done.
      apply lookup_insert_eq.
    + unfold performed in *. rewrite Hperf, Hperf1.
      rewrite <- app_assoc. reflexivity.
  - destruct (fit_simulates ext g answer x y optimizer m m
                (same_state_refl m)) as [(Hs & Hw & Ht) Hr].
    rewrite H in Hs, Hw, Ht, Hr. cbn [fst snd] in *.
    unfold same_result in Hr.
    destruct ((fit (objective_returning answer ext) g x y optimizer m).2);
      [|done].
    by subst.
Qed.

Lemma fit_objective_once_discarded_witness :
  fit installed loaded_globals (VObj 100) (VObj 101) (VObj 13) built
  = (fitted, Ok VNone)
  ∧ self (fit (objective_returning (VInt 7) installed) loaded_globals
            (VObj 100) (VObj 101) (VObj 13) built).1 = self fitted.
Proof.
  assert (fit installed loaded_globals (VObj 100) (VObj 101) (VObj 13) built
          = (fitted, Ok VNone)) as H by (vm_compute; reflexivity).
  split; [exact H|].
  exact (proj1 (proj2 (proj2
           (fit_objective_once_discarded installed loaded_globals (VObj 100)
              (VObj 101) (VObj 13) built fitted VNone (VInt 7) H)))).
Defined.

(** ** Every way the two methods can end *)

Section Stepping.

Context {W : Type}.
Variable ext : W → event → W * result value.
Implicit Types (m : machine W).

Lemma bind_assoc {A B C} (c : @M W A) (k : A → @M W B) (k' : B → @M W C) m :
  bind (bind c k) k' m = bind c (λ a, bind (k a) k') m.
Proof. unfold bind. by destruct (c m) as [m1 [a|x]]. Qed.

Lemma run_getattr_stub {B} o name (k : value → @M W B) m :
  is_stub o = true →
  bind (getattr ext o name) k m = (m, Raised (no_function_attribute name)).
Proof. by destruct o. Qed.

Lemma run_getattr {B} o name (k : value → @M W B) m :
  is_stub o = false →
  bind (getattr ext o name) k m
  = match ext (world m) (EGetAttr o name) with
    | (w, Ok v) =>
        k v (Machine (self m) w (trace m ++ [(EGetAttr o name, Ok v)]))
    | (w, Raised x) =>
        (Machine (self m) w (trace m ++ [(EGetAttr o name, Raised x)]),
         Raised x)
    end.
Proof.
  intros Ho. unfold bind. rewrite getattr_not_stub by done.
  unfold external. by destruct (ext (world m) (EGetAttr o name)) as [w [v|x]].
Qed.

Lemma run_call_stub {B} symbol msg args kwargs (k : value → @M W B) m :
  bind (call ext (VStub symbol msg) args kwargs) k m
  = (m, Raised (ImportError (stub_message symbol msg))).
Proof. done. Qed.

Lemma run_call {B} f args kwargs (k : value → @M W B) m :
  is_stub f = false →
  bind (call ext f args kwargs) k m
  = match ext (world m) (ECall f args kwargs) with
    | (w, Ok v) =>
        k v (Machine (self m) w (trace m ++ [(ECall f args kwargs, Ok v)]))
    | (w, Raised x) =>
        (Machine (self m) w (trace m ++ [(ECall f args kwargs, Raised x)]),
         Raised x)
    end.
Proof.
  intros Hf. unfold bind. rewrite call_not_stub by done.
  unfold external.
  by destruct (ext (world m) (ECall f args kwargs)) as [w [v|x]].
Qed.

Lemma run_self_get {B} name (k : value → @M W B) m :
  bind (self_get name) k m
  = match self m !! name with
    | Some v => k v m
    | None => (m, Raised (missing_attribute name))
    end.
Proof. unfold bind, self_get. by destruct (self m !! name). Qed.

Lemma run_self_set {B} name v (k : unit → @M W B) m :
  bind (self_set name v) k m
  = k tt (Machine (<[name := v]> (self m)) (world m) (trace m)).
Proof. done. Qed.

End Stepping.

Ltac run_step H :=
  cbn [world self trace] in H;
  repeat rewrite bind_assoc in H;
  lazymatch type of H with
  | bind (getattr _ ?o ?name) _ _ = _ =>
      let Hs := fresh "Hstub" in
      destruct (is_stub o) eqn:Hs;
      [ rewrite (run_getattr_stub _ _ _ _ _ Hs) in H
      | rewrite (run_getattr _ _ _ _ _ Hs) in H;
        let He := fresh "Hext" in
        lazymatch type of H with
        | match ?t with _ => _ end = _ =>
            destruct t as [? [?|?]] eqn:He
        end ]
  | bind (call _ ?f _ _) _ _ = _ =>
      let Hs := fresh "Hstub" in
      destruct (is_stub f) eqn:Hs;
      [ destruct f; try discriminate Hs; rewrite run_call_stub in H
      | rewrite (run_call _ _ _ _ _ _ Hs) in H;
        let He := fresh "Hext" in
        lazymatch type of H with
        | match ?t with _ => _ end = _ =>
            destruct t as [? [?|?]] eqn:He
        end ]
  | bind (self_get ?name) _ ?m0 = _ =>
      rewrite run_self_get in H; cbn [self] in H;
      rewrite ?lookup_insert_eq in H;
      rewrite ?lookup_insert_ne in H by done;
      cbv beta iota in H;
      lazymatch type of H with
      | match ?l with _ => _ end = _ =>
          first [ match goal with Hl : l = _ |- _ => rewrite Hl in H end
                | let Hl := fresh "Hlook" in destruct l eqn:Hl ]
      | _ => idtac
      end
  | bind (self_set _ _) _ _ = _ => rewrite run_self_set in H
  | bind (unpack2 ?r) _ _ = _ =>
      destruct r as [| | | |[|? [|? [|? ?]]]|];
      cbv [unpack2 bind ret raise self_set] in H
  end.

Ltac run_all H := first [ run_step H; run_all H | idtac ].

Ltac use_lookups :=
  repeat match goal with
  | Hl : self _ !! _ = _ |- _ => rewrite Hl
  end.

Ltac library_at n :=
  exists n; eexists _, _, _;
  split; [cbn; reflexivity|]; split; [cbn [take app]; reflexivity|reflexivity].

Ltac python_at n :=
  exists n; eexists; split; [cbn [take]; reflexivity|];
  split; [reflexivity|];
  cbn [fit_lookups predict_lookups first_missing]; use_lookups;
  first [ reflexivity
        | cbn; split; [assumption|reflexivity]
        | cbn; eexists _, _; split; reflexivity ].

Ltac try_positions tac :=
  first [ tac 0%nat | tac 1%nat | tac 2%nat | tac 3%nat | tac 4%nat
        | tac 5%nat | tac 6%nat | tac 7%nat | tac 8%nat | tac 9%nat
        | tac 10%nat ].

Ltac performed_so_far :=
  unfold performed; cbn [trace]; rewrite <- ?app_assoc; simpl app;
  first [ reflexivity | symmetry; apply app_nil_r ].

Section Endings.

Context {W : Type}.
Variable ext : W → event → W * result value.

Lemma predict_ends x (m : machine W) :
  ∃ (a : predict_answers) (evs : list entry),
    performed m (predict ext x m).1 evs
    ∧ ((evs = predict_script x (self m) a
        ∧ (predict ext x m).2
          = Ok (VTuple [pa_predictive_dist a; pa_predictive_mean a;
                        pa_predictive_std a]))
       ∨ stopped_by_library (predict_script x (self m) a) evs
           (predict ext x m).2
       ∨ stopped_by_python (self m) predict_lookups
           (predict_script x (self m) a) evs (predict ext x m).2).
Proof.
  destruct (predict ext x m) as [m' r] eqn:H. cbn [fst snd].
  unfold predict in H. run_all H.
  all: unfold ret in H; injection H as <- <-.
  all: eexists (Predict_answers _ _ _ _ _ _ _ _), _; split;
    [performed_so_far|].
  all: unfold predict_script, attr; use_lookups; cbn [default];
    unfold stopped_by_library, stopped_by_python.
  all: first [ left; split; reflexivity
             | right; left; try_positions library_at
             | right; right; try_positions python_at ].
  Unshelve. all: exact VNone.
Qed.

Lemma fit_ends g x y optimizer (m : machine W) :
  ∃ (a : fit_answers) (evs : list entry),
    performed m (fit ext g x y optimizer m).1 evs
    ∧ ((evs = fit_script g x y optimizer (self m) a
        ∧ (fit ext g x y optimizer m).2 = Ok VNone
        ∧ ∃ opt_posterior history,
            fa_result a = VTuple [opt_posterior; history])
       ∨ stopped_by_library (fit_script g x y optimizer (self m) a) evs
           (fit ext g x y optimizer m).2
       ∨ stopped_by_python (self m) fit_lookups
           (fit_script g x y optimizer (self m) a) evs
           (fit ext g x y optimizer m).2
       ∨ (evs = fit_script g x y optimizer (self m) a
          ∧ ∃ e, (fit ext g x y optimizer m).2 = Raised e
                 ∧ (unpack2 (fa_result a) (fit ext g x y optimizer m).1).2
                   = Raised e)).
Proof.
  destruct (fit ext g x y optimizer m) as [m' r] eqn:H. cbn [fst snd].
  unfold fit, fit_dataset, fit_objective, fit_optimise in H. run_all H.
  all: cbn [self world trace] in H; unfold ret in H.
  all: injection H as <- <-.
  all: eexists (Fit_answers _ _ _ _ _ _ _ _ _ _ _), _; split;
    [performed_so_far|].
  all: unfold fit_script, attr; use_lookups; cbn [default];
    unfold stopped_by_library, stopped_by_python.
  all: first [ left; split; [reflexivity|]; split; [reflexivity|];
               eexists _, _; reflexivity
             | right; left; try_positions library_at
             | right; right; left; try_positions python_at
             | right; right; right; split; [reflexivity|];
               eexists; split; reflexivity ].
  Unshelve. all: exact VNone.
Qed.
End Endings.

(** C7.  Whatever the libraries answer, [fit] and [predict] perform the
    operations of their lines in order and nothing else, no check of a
    shape, no logging, no second try, and end in one of these ways only:
    all operations were answered (and for [fit] the result of [gpx.fit]
    unpacked into two), or a library raised, in which case that operation
    is the last one performed and its exception is, unchanged, the outcome
    of the method, or Python itself raised before the next operation
    because an attribute of the instance is missing, a stub of the module
    is used, or the result of [gpx.fit] does not unpack into two.  Nothing
    is caught or translated. *)
Theorem fit_predict_propagate_errors {W : Type}
    (ext : W → event → W * result value) (g : globals)
    (x y optimizer : value) (m : machine W) :
  (∃ (a : fit_answers) (evs : list entry),
     performed m (fit ext g x y optimizer m).1 evs
     ∧ unhandled evs (fit ext g x y optimizer m).2
     ∧ ((evs = fit_script g x y optimizer (self m) a
         ∧ (fit ext g x y optimizer m).2 = Ok VNone
         ∧ ∃ opt_posterior history,
             fa_result a = VTuple [opt_posterior; history])
        ∨ stopped_by_library (fit_script g x y optimizer (self m) a) evs
            (fit ext g x y optimizer m).2
        ∨ stopped_by_python (self m) fit_lookups
            (fit_script g x y optimizer (self m) a) evs
            (fit ext g x y optimizer m).2
        ∨ (evs = fit_script g x y optimizer (self m) a
           ∧ ∃ e, (fit ext g x y optimizer m).2 = Raised e
                  ∧ (unpack2 (fa_result a) (fit ext g x y optimizer m).1).2
                    = Raised e)))
  ∧ (∃ (a : predict_answers) (evs : list entry),
       performed m (predict ext x m).1 evs
       ∧ unhandled evs (predict ext x m).2
       ∧ ((evs = predict_script x (self m) a
           ∧ (predict ext x m).2
             = Ok (VTuple [pa_predictive_dist a; pa_predictive_mean a;
                           pa_predictive_std a]))
          ∨ stopped_by_library (predict_script x (self m) a) evs
              (predict ext x m).2
          ∨ stopped_by_python (self m) predict_lookups
              (predict_script x (self m) a) evs (predict ext x m).2)).
Proof.
  split.
  - destruct (fit_ends ext g x y optimizer m) as (a & evs & Hp & Hend).
    destruct (fit_propagates ext g x y optimizer m) as (evs' & Hp' & Ht).
    unfold performed in Hp, Hp'. rewrite Hp in Hp'.
    apply app_inv_head in Hp' as <-.
    exists a, evs. eauto using tidy_unhandled.
  - destruct (predict_ends ext x m) as (a & evs & Hp & Hend).
    destruct (predict_propagates ext x m) as (evs' & Hp' & Ht).
    unfold performed in Hp, Hp'. rewrite Hp in Hp'.
    apply app_inv_head in Hp' as <-.
    exists a, evs. eauto using tidy_unhandled.
Qed.

(** C9.  [__init__] assigns no attribute outside [kernel], [mean_fun],
    [key], [prior], [likelihood], [object], [posterior]; [fit] assigns none
    outside [dataset], [opt_posterior], [history], so it leaves each of the
    seven attributes of construction as it was; [predict] leaves the whole
    instance dictionary as it was.  All three also when they raise. *)
Theorem attributes_written_at_construction_or_fit {W : Type}
    (ext : W → event → W * result value) (g : globals)
    (kernel meanfun likelihood object key x y optimizer x' : value)
    (m : machine W) :
  frames construction_attrs (init ext g kernel meanfun likelihood object key)
  ∧ frames fit_attrs (fit ext g x y optimizer)
  ∧ Forall (λ k, self (fit ext g x y optimizer m).1 !! k = self m !! k)
           construction_attrs
  ∧ self (predict ext x' m).1 = self m.
Proof.
  split; [apply init_frames|]. split; [apply fit_frames|]. split.
  - unfold construction_attrs.
    repeat (apply Forall_cons; split;
            [apply fit_frames;
             by intros [?|[?|[?|?%elem_of_nil]%elem_of_cons]%elem_of_cons]
                       %elem_of_cons|]).
    apply Forall_nil_2.
  - apply frames_nothing, predict_frames.
Qed.

(** ** The scratch snippet *)

Lemma wrap32_small (z : Z) : int32 z → wrap32 z = z.
Proof. unfold int32, wrap32. intros H. rewrite Z.mod_small; lia. Qed.

Lemma f_entry (x : Z) (i k : nat) :
  int32 x → (i < 4)%nat → (k < 3)%nat →
  entry2 (f x) i k = Some (wrap32 (x + 3 * Z.of_nat i + Z.of_nat k)).
Proof.
  intros Hx Hi Hk.
  destruct i as [|[|[|[|i]]]]; [| | | |lia];
    (destruct k as [|[|[|k]]]; [| | |lia]);
    cbn; unfold add32; f_equal; try (f_equal; lia).
  rewrite <- (wrap32_small x Hx) at 1. f_equal. lia.
Qed.

(** C10 (what fails).  The entries of [f x] are int32 sums: for the int32
    scalar 2147483647 the entry at row 0, column 1 has wrapped around to
    -2147483648 and is not [x + 3*0 + 1]. *)
Lemma f_wraps_at_int32_max :
  int32 2147483647
  ∧ entry2 (f 2147483647) 0 1 = Some (-2147483648)
  ∧ entry2 (f 2147483647) 0 1 ≠ Some (2147483647 + 3 * 0 + 1).
Proof. split; [by compute|]. split; [reflexivity|discriminate]. Qed.

(** C10 (amended).  For an int32 scalar [x], [f x] is the 4-by-3 array
    whose entry at row [i], column [k] is the int32 sum of [x] and
    [3*i + k], which is [x + 3*i + k] as long as [x + 11] is an int32.  In
    [rr] the stacked result has shape (3, 4, 3), and the loop leaves a
    4-by-9 array whose row [i] is the flattening of [result[:, i, :]]
    converted to float32, so that its entry at column [3*j + k] is
    [j + 3*i + k]. *)
Theorem rr_fills_rows :
  (∀ x : Z,
     length (f x) = 4%nat ∧ Forall (λ row, length row = 3%nat) (f x)
     ∧ ∀ i k : nat, int32 x → (i < 4)%nat → (k < 3)%nat →
         entry2 (f x) i k = Some (wrap32 (x + 3 * Z.of_nat i + Z.of_nat k))
         ∧ (x + 11 < 2 ^ 31 →
            entry2 (f x) i k = Some (x + 3 * Z.of_nat i + Z.of_nat k)))
  ∧ ∃ re_res : list (list Z),
      rr = Some ((3, 4, 3)%nat, re_res)
      ∧ length re_res = 4%nat
      ∧ Forall (λ row, length row = 9%nat) re_res
      ∧ (∀ i : nat, (i < 4)%nat →
           ∃ plane, take_axis1 i (vmap f [0; 1; 2]) = Some plane
                    ∧ re_res !! i = Some (float32_of_int32 <$> flatten plane))
      ∧ ∀ i j k : nat, (i < 4)%nat → (j < 3)%nat → (k < 3)%nat →
          entry2 re_res i (3 * j + k)
          = Some (Z.of_nat j + 3 * Z.of_nat i + Z.of_nat k).
Proof.
  split.
  - intros x. split; [done|]. split; [by repeat constructor|].
    intros i k Hx Hi Hk. split; [by apply f_entry|].
    intros Hmax. rewrite f_entry by done. f_equal.
    apply wrap32_small. unfold int32 in *. lia.
  - eexists. split; [vm_compute; reflexivity|].
    split; [done|]. split; [by repeat constructor|]. split.
    + intros i Hi.
      destruct i as [|[|[|[|i]]]]; [| | | |lia]; by eexists.
    + intros i j k Hi Hj Hk.
      destruct i as [|[|[|[|i]]]]; [| | | |lia];
        (destruct j as [|[|[|j]]]; [| | |lia]);
        (destruct k as [|[|[|k]]]; [| | |lia]); reflexivity.
Qed.

Lemma rr_fills_rows_witness :
  int32 5 ∧ entry2 (f 5) 1 2 = Some (5 + 3 * 1 + 2).
Proof.
  assert (int32 5) as H5 by (by compute).
  split; [exact H5|].
  destruct (rr_fills_rows) as [Hf _].
  destruct (Hf 5) as (_ & _ & Hentry).
  destruct (Hentry 1%nat 2%nat H5) as [_ Hexact]; [lia|lia|].
  apply Hexact. by compute.
Defined.

(** * Further properties of the module *)

(** ** Loading the module *)

Section Loading.

Context {W : Type}.
Variable ext : W → event → W * result value.
Implicit Types (m : machine W).

Lemma try_except_ImportError_Ok_inv {A} (c : @M W A) (h : exn → @M W A)
    m m' (a : A) :
  try_except_ImportError c h m = (m', Ok a) →
  c m = (m', Ok a)
  ∨ ∃ m1 x, c m = (m1, Raised x) ∧ isinstance_ImportError x = true
            ∧ h x m1 = (m', Ok a).
Proof.
  unfold try_except_ImportError. destruct (c m) as [m1 [a'|x]]; [by left|].
  destruct (isinstance_ImportError x) eqn:Hx; [|discriminate].
  right. eauto.
Qed.

(** A module that loads has imported everything, and the defaults of
    [__init__] and [fit] are what [RBF()], [Zero()],
    [LogPosteriorDensity(negative=True)], [jr.PRNGKey(123)] and [ox.adam]
    evaluated to, once, while it loaded; the load ends with the two
    lookups of [jax.Array] for the annotations of [fit]; none of the three
    constructors is a stub. *)
Theorem module_load_returns m m' (g : globals) :
  module_load ext m = (m', Ok g) →
  self m' = self m
  ∧ is_stub (g_RBF g) = false
  ∧ is_stub (g_Zero g) = false
  ∧ is_stub (g_LogPosteriorDensity g) = false
  ∧ ∃ PRNGKey Array Array',
      performed m m'
        [(EImport "jax" None, Ok (g_jax g));
         (EImport "jax.random" None, Ok (g_jr g));
         (EImport "jax.numpy" None, Ok (g_jnp g));
         (EImport "optax" None, Ok (g_ox g));
         (EImport "gpjax" None, Ok (g_gpx g));
         (EImport "gpjax.mean_functions" (Some "Zero"), Ok (g_Zero g));
         (EImport "gpjax.kernels" (Some "RBF"), Ok (g_RBF g));
         (EImport "gpjax.objectives" (Some "LogPosteriorDensity"),
          Ok (g_LogPosteriorDensity g));
         (ECall (g_RBF g) [] [], Ok (default_kernel g));
         (ECall (g_Zero g) [] [], Ok (default_meanfun g));
         (ECall (g_LogPosteriorDensity g) [] [("negative", VBool true)],
          Ok (default_object g));
         (EGetAttr (g_jr g) "PRNGKey", Ok PRNGKey);
         (ECall PRNGKey [VInt 123] [], Ok (default_key g));
         (EGetAttr (g_ox g) "adam", Ok (default_optimizer g));
         (EGetAttr (g_jax g) "Array", Ok Array);
         (EGetAttr (g_jax g) "Array", Ok Array')].
Proof.
  unfold module_load. intros H.
  apply bind_Ok_inv in H as (? & ? & H1 & H); invert_run H1.
  apply bind_Ok_inv in H as (? & ? & H2 & H); invert_run H2.
  apply bind_Ok_inv in H as (? & ? & H3 & H); invert_run H3.
  apply bind_Ok_inv in H as (? & ? & H4 & H); invert_run H4.
  apply bind_Ok_inv in H as (m5 & [[[gpx Zero] RBF] LPD] & Htry & H).
  apply try_except_ImportError_Ok_inv in Htry
    as [Htry|(m4 & e & _ & _ & [= <- <- <- <- <-])].
  - unfold import_gpjax in Htry. invert_run Htry. subst. invert_run H.
    cbn [self trace g_jax g_jr g_jnp g_ox g_gpx g_Zero g_RBF
         g_LogPosteriorDensity default_kernel default_meanfun default_object
         default_key default_optimizer].
    repeat split; try done.
    eexists _, _, _. unfold performed. cbn [trace]. rewrite <- !app_assoc.
    reflexivity.
  - apply bind_Ok_inv in H as (? & ? & Hcall & _). discriminate.
Qed.

(** When the four imports before the [try] succeed and an import inside it
    raises an [ImportError] (or a subclass), loading the module raises the
    [ImportError] of the stub [RBF], and the message of that error
    contains the message of the original one. *)
Theorem module_load_gpjax_ImportError m (w1 w2 w3 w4 : W)
    (jax jr jnp ox : value) (m5 : machine W) (x : exn) :
  ext (world m) (EImport "jax" None) = (w1, Ok jax) →
  ext w1 (EImport "jax.random" None) = (w2, Ok jr) →
  ext w2 (EImport "jax.numpy" None) = (w3, Ok jnp) →
  ext w3 (EImport "optax" None) = (w4, Ok ox) →
  import_gpjax ext
    (Machine (self m) w4
       (trace m ++ [(EImport "jax" None, Ok jax);
                    (EImport "jax.random" None, Ok jr);
                    (EImport "jax.numpy" None, Ok jnp);
                    (EImport "optax" None, Ok ox)]))
  = (m5, Raised x) →
  isinstance_ImportError x = true →
  module_load ext m = (m5, Raised (ImportError (stub_message "RBF" (str x))))
  ∧ contains (stub_message "RBF" (str x)) (str x).
Proof.
  intros H1 H2 H3 H4 H5 Hx. split; [|apply stub_message_contains].
  unfold module_load, bind at 1 2 3 4, external.
  cbn [world]. rewrite H1. cbn [world]. rewrite H2. cbn [world]. rewrite H3.
  cbn [world]. rewrite H4. cbn [world self trace].
  rewrite <- !app_assoc. simpl app.
  match goal with |- bind ?c _ ?m0 = _ =>
    assert (c m0 = (m5, Ok (stub_gpx (str x), stub_Zero (str x),
                            stub_RBF (str x),
                            stub_LogPosteriorDensity (str x)))) as Htry
      by (unfold try_except_ImportError;
          match goal with |- (let (_, _) := ?t in _) = _ =>
            replace t with (m5, @Raised (value * value * value * value) x)
              by (symmetry; exact H5)
          end; by rewrite Hx)
  end.
  by rewrite (bind_run_Ok _ _ _ _ _ Htry).
Qed.

(** An exception of another class raised inside the [try] is not caught:
    loading the module raises it unchanged. *)
Theorem module_load_other_exception m (w1 w2 w3 w4 : W)
    (jax jr jnp ox : value) (m5 : machine W) (x : exn) :
  ext (world m) (EImport "jax" None) = (w1, Ok jax) →
  ext w1 (EImport "jax.random" None) = (w2, Ok jr) →
  ext w2 (EImport "jax.numpy" None) = (w3, Ok jnp) →
  ext w3 (EImport "optax" None) = (w4, Ok ox) →
  import_gpjax ext
    (Machine (self m) w4
       (trace m ++ [(EImport "jax" None, Ok jax);
                    (EImport "jax.random" None, Ok jr);
                    (EImport "jax.numpy" None, Ok jnp);
                    (EImport "optax" None, Ok ox)]))
  = (m5, Raised x) →
  isinstance_ImportError x = false →
  module_load ext m = (m5, Raised x).
Proof.
  intros H1 H2 H3 H4 H5 Hx.
  unfold module_load, bind at 1 2 3 4, external.
  cbn [world]. rewrite H1. cbn [world]. rewrite H2. cbn [world]. rewrite H3.
  cbn [world]. rewrite H4. cbn [world self trace].
  rewrite <- !app_assoc. simpl app.
  match goal with |- bind ?c _ ?m0 = _ =>
    assert (c m0 = (m5, Raised x)) as Htry
      by (unfold try_except_ImportError;
          match goal with |- (let (_, _) := ?t in _) = _ =>
            replace t with (m5, @Raised (value * value * value * value) x)
              by (symmetry; exact H5)
          end; by rewrite Hx)
  end.
  unfold bind. by rewrite Htry.
Qed.

End Loading.

(** ** Construction *)

Section Construction.

Context {W : Type}.
Variable ext : W → event → W * result value.
Implicit Types (m : machine W) (g : globals).

(** A construction that returns has looked up [gpx.gps.Prior], called it
    with the mean function and the kernel, and multiplied its answer by the
    likelihood; the five arguments are stored as they came, the two answers
    as [prior] and [posterior]. *)
Theorem init_returns g kernel meanfun likelihood object key m m' v :
  init ext g kernel meanfun likelihood object key m = (m', Ok v) →
  ∃ gps Prior prior posterior,
    v = VNone
    ∧ performed m m'
        [(EGetAttr (g_gpx g) "gps", Ok gps);
         (EGetAttr gps "Prior", Ok Prior);
         (ECall Prior [] [("mean_function", meanfun); ("kernel", kernel)],
          Ok prior);
         (EMul prior likelihood, Ok posterior)]
    ∧ self m' = <["posterior" := posterior]>
                  (<["object" := object]>
                     (<["likelihood" := likelihood]>
                        (<["prior" := prior]>
                           (<["key" := key]>
                              (<["mean_fun" := meanfun]>
                                 (<["kernel" := kernel]> (self m))))))).
Proof.
  unfold init, performed. intros H. invert_run H.
  cbn [world self trace] in *.
  repeat match goal with
  | Hl : <[_ := _]> _ !! _ = Some _ |- _ =>
      first [ rewrite lookup_insert_eq in Hl; injection Hl as <-
            | rewrite lookup_insert_ne in Hl by done ]
  end.
  rewrite <- !app_assoc. simpl app.
  eexists _, _, _, _. repeat split; eauto.
Qed.

(** The default arguments are not evaluated again when an instance is
    built: after a load, which evaluated them and ended with the annotations
    of [fit], [GPClassification()] performs four operations only,
    stores the kernel, mean function, objective and key the load evaluated,
    and, the default likelihood being [None], takes [prior * None] as
    posterior. *)
Theorem load_then_construct m m1 m2 g' v :
  module_load ext m = (m1, Ok g') →
  construct ext g' None None None None None m1 = (m2, Ok v) →
  ∃ before PRNGKey Array Array' gps Prior prior posterior,
    performed m m1
      (before ++
       [(ECall (g_RBF g') [] [], Ok (default_kernel g'));
        (ECall (g_Zero g') [] [], Ok (default_meanfun g'));
        (ECall (g_LogPosteriorDensity g') [] [("negative", VBool true)],
         Ok (default_object g'));
        (EGetAttr (g_jr g') "PRNGKey", Ok PRNGKey);
        (ECall PRNGKey [VInt 123] [], Ok (default_key g'));
        (EGetAttr (g_ox g') "adam", Ok (default_optimizer g'));
        (EGetAttr (g_jax g') "Array", Ok Array);
        (EGetAttr (g_jax g') "Array", Ok Array')])
    ∧ performed m1 m2
        [(EGetAttr (g_gpx g') "gps", Ok gps);
         (EGetAttr gps "Prior", Ok Prior);
         (ECall Prior []
            [("mean_function", default_meanfun g');
             ("kernel", default_kernel g')], Ok prior);
         (EMul prior VNone, Ok posterior)]
    ∧ self m2 !! "kernel" = Some (default_kernel g')
    ∧ self m2 !! "mean_fun" = Some (default_meanfun g')
    ∧ self m2 !! "object" = Some (default_object g')
    ∧ self m2 !! "key" = Some (default_key g')
    ∧ self m2 !! "likelihood" = Some VNone
    ∧ self m2 !! "prior" = Some prior
    ∧ self m2 !! "posterior" = Some posterior.
Proof.
  intros Hload Hc.
  destruct (module_load_returns _ _ _ _ Hload)
    as (_ & _ & _ & _ & PRNGKey & Array & Array' & Hp).
  unfold construct in Hc. cbn [default] in Hc.
  match type of Hc with init _ ?g0 _ _ _ _ _ _ = _ =>
    destruct (init_returns g0 _ _ _ _ _ _ _ _ Hc)
      as (gps & Prior & prior & posterior & _ & Hp2 & Hself)
  end.
  eexists [_; _; _; _; _; _; _; _], PRNGKey, Array, Array', gps, Prior,
    prior, posterior.
  split; [exact Hp|]. split; [exact Hp2|].
  rewrite Hself. by simplify_map_eq.
Qed.

End Construction.

(** ** Runs that raise *)

Section Raising.

Context {W : Type}.
Variable ext : W → event → W * result value.
Implicit Types (m : machine W).

Lemma bind_Raised_inv {A B} (c : @M W A) (k : A → @M W B) m m' x :
  bind c k m = (m', Raised x) →
  c m = (m', Raised x) ∨ ∃ m1 a, c m = (m1, Ok a) ∧ k a m1 = (m', Raised x).
Proof.
  unfold bind. destruct (c m) as [m1 [a|x']]; [eauto|].
  intros [= <- <-]. by left.
Qed.

Lemma external_self e m : self (external ext e m).1 = self m.
Proof. unfold external. by destruct (ext (world m) e). Qed.

Lemma call_self f args kwargs m : self (call ext f args kwargs m).1 = self m.
Proof. destruct f; cbn [call]; apply external_self || done. Qed.

Lemma getattr_self o name m : self (getattr ext o name m).1 = self m.
Proof. destruct o; cbn [getattr]; apply external_self || done. Qed.

Lemma self_get_raised name m m' x :
  self_get name m = (m', Raised x) →
  self m !! name = None ∧ m' = m
  ∧ x = AttributeError ("'GPClassification' object has no attribute '"
                          +:+ name +:+ "'").
Proof.
  unfold self_get. destruct (self m !! name); [discriminate|].
  by intros [= <- <-].
Qed.

Lemma unpack2_self r m : self (unpack2 (W:=W) r m).1 = self m.
Proof. by destruct r as [| | | |[|a [|b [|? ?]]]|]. Qed.

End Raising.

(** Takes apart a hypothesis [H] saying that a run raised into the cases of
    which primitive raised, and leaves in each case a goal about the
    machine that primitive left. *)
Ltac invert_raised H :=
  cbn [world self trace fst snd] in H;
  lazymatch type of H with
  | bind _ _ _ = (_, Raised _) =>
      let H1 := fresh "Hrun" in
      apply bind_Raised_inv in H as [H | (? & ? & H1 & H)];
      [invert_raised H | invert_run H1; invert_raised H]
  | self_set _ _ _ = (_, Raised _) => discriminate H
  | ret _ _ = (_, Raised _) => discriminate H
  | (let '(_, _) := ?p in _) _ = (_, Raised _) => destruct p; invert_raised H
  | _ => idtac
  end.

Section Methods_raising.

Context {W : Type}.
Variables (ext : W → event → W * result value) (g : globals).
Implicit Types (m : machine W).

Lemma fit_objective_self m : self (fit_objective ext m).1 = self m.
Proof. apply frames_nothing, fit_objective_frames. Qed.

Lemma fit_dataset_self x y m : self (fit_dataset ext g x y m).1 = self m.
Proof. apply frames_nothing, fit_dataset_frames. Qed.

Lemma fit_optimise_raised optimizer m m' x :
  fit_optimise ext g optimizer m = (m', Raised x) → self m' = self m.
Proof.
  unfold fit_optimise. intros H. invert_raised H;
    cbn [world self trace] in *;
    lazymatch type of H with
    | self_get _ _ = _ => by apply self_get_raised in H as (_ & -> & _)
    | ?c = (_, _) =>
        let Hs := fresh in
        assert (self (c.1) = self m') as Hs by (by rewrite H);
        rewrite <- Hs;
        first [ by rewrite getattr_self | by rewrite call_self
              | by rewrite unpack2_self ]
    end.
Qed.

(** A [fit] that raises has assigned neither [opt_posterior] nor
    [history]: either line 89 raised and the instance is as it was, or the
    dataset was built and stored and nothing else changed, so that the
    instance then pairs the new dataset with the posterior of an earlier
    [fit], if there was one. *)
Theorem fit_raised x y optimizer m m' e :
  fit ext g x y optimizer m = (m', Raised e) →
  self m' !! "opt_posterior" = self m !! "opt_posterior"
  ∧ self m' !! "history" = self m !! "history"
  ∧ ((∃ m1, fit_dataset ext g x y m = (m1, Raised e) ∧ self m' = self m)
     ∨ ∃ m1 dataset, fit_dataset ext g x y m = (m1, Ok dataset)
                     ∧ self m' = <["dataset" := dataset]> (self m)).
Proof.
  intros H.
  assert ((∃ m1, fit_dataset ext g x y m = (m1, Raised e) ∧ self m' = self m)
          ∨ ∃ m1 dataset, fit_dataset ext g x y m = (m1, Ok dataset)
                          ∧ self m' = <["dataset" := dataset]> (self m))
    as Hcases.
  { unfold fit in H.
    apply bind_Raised_inv in H as [H | (m1 & dataset & Hd & H)].
    - left. exists m'. split; [done|].
      by rewrite <- (fit_dataset_self x y m), H.
    - right. exists m1, dataset. split; [done|].
      apply bind_Raised_inv in H as [H | (m2 & [] & Hs & H)];
        [discriminate|].
      apply self_set_returns in Hs as ->.
      assert (self m1 = self m) as Hm1
        by (by rewrite <- (fit_dataset_self x y m), Hd).
      apply bind_Raised_inv in H as [H | (m3 & r & Ho & H)].
      + match type of H with fit_objective _ ?m0 = _ =>
          pose proof (fit_objective_self m0) as Hs end.
        rewrite H in Hs. cbn [fst self] in Hs. by rewrite Hs, Hm1.
      + apply fit_optimise_raised in H.
        match type of Ho with fit_objective _ ?m0 = _ =>
          pose proof (fit_objective_self m0) as Hs end.
        rewrite Ho in Hs. cbn [fst self] in Hs. by rewrite H, Hs, Hm1. }
  split; [|split; [|done]];
    destruct Hcases as [(? & _ & ->)|(? & ? & _ & ->)];
    by rewrite ?lookup_insert_ne.
Qed.

(** An instance that has only been constructed cannot predict: [predict]
    raises the [AttributeError] for [opt_posterior] at once, before any
    operation on the libraries, and changes nothing. *)
Theorem predict_before_fit kernel meanfun likelihood object key x' m m1 v :
  self m = ∅ →
  init ext g kernel meanfun likelihood object key m = (m1, Ok v) →
  predict ext x' m1
  = (m1, Raised (AttributeError
                   "'GPClassification' object has no attribute 'opt_posterior'")).
Proof.
  intros Hempty Hinit.
  assert (self m1 !! "opt_posterior" = None) as Hnone.
  { pose proof (init_frames ext g kernel meanfun likelihood object key m
                  "opt_posterior") as Hf.
    rewrite Hinit, Hempty in Hf. cbn [fst] in Hf. rewrite Hf; [done|].
    unfold construction_attrs. rewrite !elem_of_cons, elem_of_nil.
    by intros [?|[?|[?|[?|[?|[?|[?|?]]]]]]]. }
  unfold predict, bind, self_get. by rewrite Hnone.
Qed.

(** How the two methods compose: a [fit] that returns performs exactly
    its eleven operations, and a [predict] that returns after it performs
    exactly its eight, in which the posterior is the first component of
    what [gpx.fit] returned in that [fit] and [train_data] is the dataset
    [gpx.Dataset] returned in that [fit]. *)
Theorem fit_then_predict x y optimizer x' m m1 m2 v r :
  fit ext g x y optimizer m = (m1, Ok v) →
  predict ext x' m1 = (m2, Ok r) →
  ∃ Dataset x_astype y_astype float32 float32' X Y dataset object posterior
    key returned gpx_fit opt_posterior history posterior_predict latent_dist
    likelihood predictive_dist dist_mean predictive_mean dist_stddev
    predictive_std,
    self m !! "object" = Some object
    ∧ self m !! "posterior" = Some posterior
    ∧ self m !! "key" = Some key
    ∧ performed m m1
        [(EGetAttr (g_gpx g) "Dataset", Ok Dataset);
         (EGetAttr x "astype", Ok x_astype);
         (EGetAttr (g_jnp g) "float32", Ok float32);
         (ECall x_astype [float32] [], Ok X);
         (EGetAttr y "astype", Ok y_astype);
         (EGetAttr (g_jnp g) "float32", Ok float32');
         (ECall y_astype [float32'] [], Ok Y);
         (ECall Dataset [] [("X", X); ("y", Y)], Ok dataset);
         (ECall object [posterior] [("train_data", dataset)], Ok returned);
         (EGetAttr (g_gpx g) "fit", Ok gpx_fit);
         (ECall gpx_fit []
            [("model", posterior); ("objective", object);
             ("train_data", dataset); ("optim", optimizer);
             ("num_iters", VInt 500); ("key", key);
             ("verbose", VBool false)],
          Ok (VTuple [opt_posterior; history]))]
    ∧ performed m1 m2
        [(EGetAttr opt_posterior "predict", Ok posterior_predict);
         (ECall posterior_predict [x'] [("train_data", dataset)],
          Ok latent_dist);
         (EGetAttr opt_posterior "likelihood", Ok likelihood);
         (ECall likelihood [latent_dist] [], Ok predictive_dist);
         (EGetAttr predictive_dist "mean", Ok dist_mean);
         (ECall dist_mean [] [], Ok predictive_mean);
         (EGetAttr predictive_dist "stddev", Ok dist_stddev);
         (ECall dist_stddev [] [], Ok predictive_std)]
    ∧ r = VTuple [predictive_dist; predictive_mean; predictive_std].
Proof.
  intros Hfit Hpredict.
  destruct (fit_returns _ _ _ _ _ _ _ _ Hfit)
    as (m0 & dataset & object & posterior & key & ro & gpx_fit & opt_posterior
        & history & Hd & Ho & Hpo & Hk & _ & Hself & Hperf).
  destruct (fit_dataset_returns _ _ _ _ _ _ _ Hd)
    as (D & xa & ya & f & f' & X & Y & _ & Hperf1).
  destruct (predict_returns _ _ _ _ _ Hpredict)
    as (op & ds & pp & latent & lik & pd & dm & pm & dsd & ps
        & Hop & Hds & Hr & Hperf2).
  rewrite Hself in Hop, Hds.
  rewrite lookup_insert_ne, lookup_insert_eq in Hop by done.
  rewrite !lookup_insert_ne, lookup_insert_eq in Hds by done.
  injection Hop as <-. injection Hds as <-.
  exists D, xa, ya, f, f', X, Y, dataset, object, posterior, key, ro, gpx_fit,
    opt_posterior, history, pp, latent, lik, pd, dm, pm, dsd, ps.
  split; [done|]. split; [done|]. split; [done|]. split; [|by split].
  unfold performed in *. rewrite Hperf, Hperf1.
  rewrite <- app_assoc. reflexivity.
Qed.

End Methods_raising.

(** ** Which attributes a method consults *)

Create HintDb read.

Section Reading.

Context {W : Type}.
Variable ext : W → event → W * result value.
Implicit Types (m : machine W) (P Q R : list string).

Lemma performed_nil m m' : trace m' = trace m → performed m m' [].
Proof. unfold performed. intros ->. by rewrite app_nil_r. Qed.

Lemma reads_pure {A} P (r : result A) : reads P P (λ m : machine W, (m, r)).
Proof.
  intros m m' H. cbn [fst snd]. repeat split; try done; try apply H.
  exists []. split; by apply performed_nil.
Qed.

Lemma reads_ret {A} P (a : A) : reads P P (ret (W:=W) a).
Proof. apply reads_pure. Qed.

Lemma reads_raise {A} P x : reads P P (raise (W:=W) (A:=A) x).
Proof. apply reads_pure. Qed.

Lemma reads_external P e : reads P P (external ext e).
Proof.
  intros m m' [Hw Hs]. unfold external. rewrite <- Hw.
  destruct (ext (world m) e) as [w r]. cbn [fst snd].
  repeat split; try done. by exists [(e, r)].
Qed.

Lemma reads_call P f args kwargs : reads P P (call ext f args kwargs).
Proof. destruct f; cbn [call]; auto using reads_external, reads_raise. Qed.

Lemma reads_getattr P o name : reads P P (getattr ext o name).
Proof. destruct o; cbn [getattr]; auto using reads_external, reads_raise. Qed.

Lemma reads_unpack2 P r : reads P P (unpack2 (W:=W) r).
Proof.
  destruct r as [| | | |[|a [|b [|? ?]]]|]; cbn [unpack2];
    auto using reads_ret, reads_raise.
Qed.

Lemma reads_self_get P name : name ∈ P → reads P P (self_get (W:=W) name).
Proof.
  intros Hin m m' [Hw Hs]. unfold self_get. rewrite <- (Hs name Hin).
  destruct (self m !! name); cbn [fst snd]; repeat split; try done;
    exists []; split; by apply performed_nil.
Qed.

Lemma reads_self_set P name v :
  reads P (name :: P) (self_set (W:=W) name v).
Proof.
  intros m m' [Hw Hs]. unfold self_set. cbn [fst snd].
  split; [done|]. split; [|split].
  - split; [done|]. intros k Hk. cbn [self].
    destruct (decide (name = k)) as [->|Hne].
    + by rewrite !lookup_insert_eq.
    + rewrite !lookup_insert_ne by done. by apply Hs.
  - intros _. split; [done|]. intros k Hk. cbn [self].
    destruct (decide (name = k)) as [->|Hne].
    + by rewrite !lookup_insert_eq.
    + rewrite !lookup_insert_ne by done.
      apply Hs. apply elem_of_cons in Hk as [->|Hk]; done.
  - exists []. split; by apply performed_nil.
Qed.

Lemma agree_on_weaken P Q m m' :
  (∀ k, k ∈ P → k ∈ Q) → agree_on Q m m' → agree_on P m m'.
Proof. intros Hsub [Hw Hs]. split; [done|]. intros k Hk. apply Hs, Hsub, Hk. Qed.

Lemma reads_bind {A B} P Q R (c : @M W A) (k : A → @M W B) :
  (∀ n, n ∈ P → n ∈ Q) →
  reads P Q c → (∀ a, reads Q R (k a)) → reads P R (bind c k).
Proof.
  intros Hsub Hc Hk m m' Hm.
  destruct (Hc m m' Hm) as (Hr & HP & HQ & evs1 & Hp1 & Hp1').
  unfold bind.
  destruct (c m) as [m1 [a|x]], (c m') as [m1' [a'|x']];
    cbn [fst snd] in *; try discriminate.
  - injection Hr as <-.
    destruct (Hk a m1 m1' (HQ I)) as (Hr2 & HQ2 & HR2 & evs2 & Hp2 & Hp2').
    split; [done|]. split; [by apply (agree_on_weaken P Q)|].
    split; [done|]. exists (evs1 ++ evs2).
    unfold performed in *. by rewrite Hp2, Hp2', Hp1, Hp1', !app_assoc.
  - injection Hr as <-. repeat split; try apply HP; try done.
    by exists evs1.
Qed.

End Reading.

#[export] Hint Resolve reads_ret reads_raise reads_external reads_call
  reads_getattr reads_unpack2 reads_self_set : read.
#[export] Hint Extern 2 (reads _ _ (self_get _)) =>
  apply reads_self_get; repeat first
    [ apply list_elem_of_here | apply list_elem_of_further ] : read.
#[export] Hint Extern 3 (reads _ _ (let '(_, _) := ?p in _)) =>
  destruct p : read.

(** One statement of a method: the attributes known so far stay known. *)
Ltac read_step :=
  eapply reads_bind;
  [ | solve [ eauto with read ] | ];
  [ intros ? ?; repeat first [ eassumption | apply list_elem_of_further ]
  | intros ].

Section Methods_reading.

Context {W : Type}.
Variables (ext : W → event → W * result value) (g : globals).

Lemma fit_dataset_reads P x y : reads P P (fit_dataset ext g x y).
Proof. unfold fit_dataset. do 7 read_step. eauto with read. Qed.

Lemma fit_objective_reads :
  reads ["dataset"; "object"; "posterior"; "key"]
        ["dataset"; "object"; "posterior"; "key"] (fit_objective ext).
Proof. unfold fit_objective. do 3 read_step. eauto with read. Qed.

Lemma fit_optimise_reads optimizer :
  reads ["dataset"; "object"; "posterior"; "key"]
        ["history"; "opt_posterior"; "dataset"; "object"; "posterior"; "key"]
        (fit_optimise ext g optimizer).
Proof.
  unfold fit_optimise. do 6 read_step.
  eapply reads_bind; [|apply reads_unpack2|intros [opt_posterior history]];
    [done|].
  do 2 read_step. apply reads_ret.
Qed.

Lemma fit_consults x y optimizer :
  reads ["object"; "posterior"; "key"]
        ["history"; "opt_posterior"; "dataset"; "object"; "posterior"; "key"]
        (fit ext g x y optimizer).
Proof.
  unfold fit.
  eapply reads_bind; [|apply fit_dataset_reads|intros dataset]; [done|].
  read_step.
  eapply reads_bind; [|apply fit_objective_reads|intros _]; [done|].
  apply fit_optimise_reads.
Qed.

Lemma predict_consults x :
  reads ["opt_posterior"; "dataset"] ["opt_posterior"; "dataset"]
        (predict ext x).
Proof. unfold predict. do 11 read_step. apply reads_ret. Qed.

(** [fit] consults the attributes [object], [posterior] and [key] and no
    other: on two instances that agree on these three, in the same world,
    it has the same outcome, performs the same operations with the same
    answers and leaves the same world, and when it returns the two
    instances hold the same [dataset], [opt_posterior] and [history].  What
    an earlier [fit] left in these three plays no part. *)
Theorem fit_reads x y optimizer (m m' : machine W) :
  agree_on ["object"; "posterior"; "key"] m m' →
  (fit ext g x y optimizer m).2 = (fit ext g x y optimizer m').2
  ∧ world (fit ext g x y optimizer m).1 = world (fit ext g x y optimizer m').1
  ∧ (∃ evs, performed m (fit ext g x y optimizer m).1 evs
            ∧ performed m' (fit ext g x y optimizer m').1 evs)
  ∧ (returned (fit ext g x y optimizer m).2 →
     Forall (λ k, self (fit ext g x y optimizer m).1 !! k
                  = self (fit ext g x y optimizer m').1 !! k) fit_attrs).
Proof.
  intros H. destruct (fit_consults x y optimizer m m' H)
    as (Hr & [Hw _] & Hpost & Hevs).
  repeat split; try done.
  intros Hret. destruct (Hpost Hret) as [_ Hs].
  unfold fit_attrs.
  repeat (apply Forall_cons; split;
          [apply Hs; repeat first
             [ apply list_elem_of_here | apply list_elem_of_further ]|]).
  apply Forall_nil_2.
Qed.

(** [predict] consults [opt_posterior] and [dataset] and no other
    attribute: on two instances that agree on these two, in the same world,
    it has the same outcome and performs the same operations with the same
    answers. *)
Theorem predict_reads x (m m' : machine W) :
  agree_on ["opt_posterior"; "dataset"] m m' →
  (predict ext x m).2 = (predict ext x m').2
  ∧ world (predict ext x m).1 = world (predict ext x m').1
  ∧ ∃ evs, performed m (predict ext x m).1 evs
           ∧ performed m' (predict ext x m').1 evs.
Proof.
  intros H. destruct (predict_consults x m m' H) as (Hr & [Hw _] & _ & Hevs).
  done.
Qed.

End Methods_reading.

(** ** The reshaping loop of the scratch snippet, on any array *)

Section Reshaping.

Implicit Types (result : list (list (list Z))) (a : list (list Z)).

Lemma concat_mjoin a : concat a = mjoin a.
Proof. induction a as [|row a IH]; [done|]. cbn. by rewrite IH. Qed.

Lemma flatten_length cols a :
  Forall (λ row, length row = cols) a →
  length (flatten a) = (length a * cols)%nat.
Proof.
  unfold flatten. induction 1 as [|row a Hrow _ IH]; [done|].
  cbn. rewrite length_app, IH, Hrow. lia.
Qed.

Lemma flatten_lookup cols a j k :
  Forall (λ row, length row = cols) a → (k < cols)%nat →
  flatten a !! (j * cols + k)%nat = (row ← a !! j; row !! k).
Proof.
  intros Ha Hk. unfold flatten. rewrite concat_mjoin.
  destruct (a !! j) as [row|] eqn:Hj; cbn.
  - destruct (row !! k) as [z|] eqn:Hz.
    + apply join_lookup_Some_same_length'; eauto.
    + apply lookup_ge_None in Hz.
      assert (length row = cols) by (eapply Forall_lookup_1 in Ha; eauto).
      lia.
  - apply lookup_ge_None. rewrite <- concat_mjoin.
    fold (flatten a). rewrite (flatten_length cols) by done.
    apply lookup_ge_None in Hj. nia.
Qed.

Lemma take_axis1_Some rows cols result i :
  has_shape rows cols result → (i < rows)%nat →
  ∃ plane, take_axis1 i result = Some plane
           ∧ length plane = length result
           ∧ Forall (λ row, length row = cols) plane
           ∧ ∀ j, plane !! j = (p ← result !! j; p !! i).
Proof.
  unfold has_shape, take_axis1. intros Hshape Hi.
  induction Hshape as [|p result [Hp Hrows] _ (plane & Hplane & Hlen & Hall & Hl)].
  - exists []. by repeat split.
  - destruct (lookup_lt_is_Some_2 p i) as [row Hrow]; [lia|].
    exists (row :: plane). cbn. rewrite Hrow. cbn.
    rewrite Hplane. cbn. repeat split.
    + by rewrite Hlen.
    + constructor; [|done]. eapply Forall_lookup_1 in Hrows; eauto.
    + intros [|j]; cbn; [done|apply Hl].
Qed.

Lemma rr_body_None result i : rr_body result None i = None.
Proof. done. Qed.

Lemma rr_loop_prefix rows cols result a t :
  has_shape rows cols result →
  length a = rows →
  Forall (λ row, length row = (length result * cols)%nat) a →
  (t ≤ rows)%nat →
  ∃ out,
    foldl (rr_body result) (Some a) (seq 0 t) = Some out
    ∧ length out = rows
    ∧ Forall (λ row, length row = (length result * cols)%nat) out
    ∧ (∀ i, (i < t)%nat →
         ∃ plane, take_axis1 i result = Some plane
                  ∧ out !! i = Some (float32_of_int32 <$> flatten plane))
    ∧ ∀ i, (t ≤ i)%nat → out !! i = a !! i.
Proof.
  intros Hshape Hlen Hcols. induction t as [|t IH]; intros Ht.
  - exists a. repeat split; try done. intros i Hi. lia.
  - destruct IH as (out & Hloop & Hlen' & Hcols' & Hdone & Hrest); [lia|].
    destruct (take_axis1_Some rows cols result t Hshape)
      as (plane & Hplane & Hpl & Hprows & _); [lia|].
    assert (length (flatten plane) = (length result * cols)%nat) as Hflat
      by (by rewrite (flatten_length cols), Hpl).
    exists (<[t := float32_of_int32 <$> flatten plane]> out).
    rewrite seq_S, foldl_app, Hloop. cbn [foldl].
    unfold rr_body at 1. cbn. rewrite Hplane. cbn. unfold at_set.
    rewrite decide_True by (by rewrite Hflat).
    repeat split.
    + by rewrite length_insert.
    + apply Forall_insert; [done|]. by rewrite length_fmap.
    + intros i Hi. destruct (decide (i = t)) as [->|Hne].
      * exists plane. split; [done|].
        apply list_lookup_insert_eq. lia.
      * destruct (Hdone i) as (p & Hp & Hout); [lia|].
        exists p. split; [done|]. by rewrite list_lookup_insert_ne.
    + intros i Hi. rewrite list_lookup_insert_ne by lia. apply Hrest. lia.
Qed.

(** Lines 89-90 on any int32 array: when [result] has shape
    (n, rows, cols) and the float32 array [re_res] has shape
    (rows, n*cols), the loop over [range(rows)] succeeds and leaves an
    array of the same shape whose row [i] is the flattening of
    [result[:, i, :]] converted to float32, that is whose entry at column
    [j*cols + k] is [result[j][i][k]] converted to float32; the conversion
    is exact for entries below 2^24 in magnitude. *)
Theorem rr_loop_fills rows cols result re_res :
  has_shape rows cols result →
  length re_res = rows →
  Forall (λ row, length row = (length result * cols)%nat) re_res →
  ∃ out,
    foldl (rr_body result) (Some re_res) (seq 0 rows) = Some out
    ∧ length out = rows
    ∧ Forall (λ row, length row = (length result * cols)%nat) out
    ∧ (∀ i, (i < rows)%nat →
         ∃ plane, take_axis1 i result = Some plane
                  ∧ out !! i = Some (float32_of_int32 <$> flatten plane))
    ∧ ∀ i j k, (i < rows)%nat → (j < length result)%nat → (k < cols)%nat →
        entry2 out i (j * cols + k)
        = float32_of_int32 <$> entry3 result j i k
        ∧ ∀ z, entry3 result j i k = Some z → Z.abs z < 2 ^ 24 →
            entry2 out i (j * cols + k) = Some z.
Proof.
  intros Hshape Hlen Hcols.
  destruct (rr_loop_prefix rows cols result re_res rows Hshape Hlen Hcols)
    as (out & Hloop & Hlen' & Hcols' & Hdone & _); [done|].
  exists out. repeat split; try done.
  - destruct (Hdone i H) as (plane & Hplane & Hout).
    destruct (take_axis1_Some rows cols result i Hshape H)
      as (plane' & Hplane' & _ & Hprows & Hl).
    rewrite Hplane in Hplane'. injection Hplane' as <-.
    unfold entry2, entry3. rewrite Hout. cbn.
    rewrite list_lookup_fmap, (flatten_lookup cols) by done. rewrite Hl.
    by destruct (result !! j).
  - intros z Hz Hsmall.
    destruct (Hdone i H) as (plane & Hplane & Hout).
    destruct (take_axis1_Some rows cols result i Hshape H)
      as (plane' & Hplane' & _ & Hprows & Hl).
    rewrite Hplane in Hplane'. injection Hplane' as <-.
    unfold entry2, entry3 in *. rewrite Hout. cbn.
    rewrite list_lookup_fmap, (flatten_lookup cols) by done. rewrite Hl.
    destruct (result !! j) as [p|]; [|done]. cbn in *. rewrite Hz. cbn.
    unfold float32_of_int32. by rewrite (proj2 (Z.ltb_lt _ _) Hsmall).
Qed.

(** [vmap f] on any batch of int32 scalars: one 4-by-3 plane per scalar,
    with the int32 sum of [x] and [3*i + k] in the plane of [x]. *)
Theorem vmap_f_entries (xs : list Z) :
  length (vmap f xs) = length xs
  ∧ has_shape 4 3 (vmap f xs)
  ∧ ∀ (j i k : nat) (x : Z),
      xs !! j = Some x → int32 x → (i < 4)%nat → (k < 3)%nat →
      entry3 (vmap f xs) j i k
      = Some (wrap32 (x + 3 * Z.of_nat i + Z.of_nat k)).
Proof.
  unfold vmap, has_shape. split; [apply length_fmap|]. split.
  - apply Forall_fmap, Forall_true. intros x. split; [done|].
    by repeat constructor.
  - intros j i k x Hx Hint Hi Hk. unfold entry3.
    rewrite list_lookup_fmap, Hx. cbn. by apply f_entry.
Qed.

(** The snippet on any batch of int32 scalars: with [result = vmap f xs]
    and [re_res] the float32 zero array of shape (4, 3*n) for a batch of
    [n] scalars, the loop leaves at row [i], column [3*j + k] the int32 sum
    of [xs[j]] and [3*i + k] converted to float32, which is
    [xs[j] + 3*i + k] when [xs[j]] and [xs[j] + 11] are below 2^24 in
    magnitude. *)
Theorem rr_any_batch (xs : list Z) :
  ∃ out,
    foldl (rr_body (vmap f xs)) (Some (zeros 4 (3 * length xs)))
          (seq 0 4) = Some out
    ∧ ∀ (i j k : nat) (x : Z),
        xs !! j = Some x → int32 x → (i < 4)%nat → (k < 3)%nat →
        entry2 out i (3 * j + k)
        = Some (float32_of_int32 (wrap32 (x + 3 * Z.of_nat i + Z.of_nat k)))
        ∧ (- 2 ^ 24 < x → x + 11 < 2 ^ 24 →
           entry2 out i (3 * j + k)
           = Some (x + 3 * Z.of_nat i + Z.of_nat k)).
Proof.
  destruct (vmap_f_entries xs) as (Hlen & Hshape & Hentries).
  destruct (rr_loop_fills 4 3 (vmap f xs) (zeros 4 (3 * length xs)))
    as (out & Hloop & _ & _ & _ & Hout); [done|done| |].
  { unfold zeros. apply Forall_replicate. rewrite length_replicate. lia. }
  exists out. split; [done|]. intros i j k x Hx Hint Hi Hk.
  replace (3 * j + k)%nat with (j * 3 + k)%nat by lia.
  assert (j < length (vmap f xs))%nat as Hj
    by (rewrite Hlen; by eapply lookup_lt_Some).
  destruct (Hout i j k Hi Hj Hk) as [Hcast Hexact].
  rewrite (Hentries j i k x Hx Hint Hi Hk) in Hcast, Hexact.
  split; [exact Hcast|]. intros Hlo Hhi.
  assert (wrap32 (x + 3 * Z.of_nat i + Z.of_nat k)
          = x + 3 * Z.of_nat i + Z.of_nat k) as Hw
    by (apply wrap32_small; unfold int32 in *; lia).
  rewrite <- Hw. apply Hexact; [done|]. rewrite Hw. lia.
Qed.

End Reshaping.

(** ** The evolutionary example *)

Module MoeaProperties.
Import Moea.

Section Script.

Context {W : Type}.
Variable ext : W → op → W * result value.
Implicit Types (s : run W) (v : value).

Lemma st_bind_Ok_inv {A B} (c : @ST W A) (k : A → @ST W B) s s' (b : B) :
  bind c k s = (s', Ok b) →
  ∃ s1 a, c s = (s1, Ok a) ∧ k a s1 = (s', Ok b).
Proof.
  unfold bind. destruct (c s) as [s1 [a|x]]; [eauto | discriminate].
Qed.

Lemma perform_returns o s s' v :
  perform ext o s = (s', Ok v) →
  ∃ w, ext (outside s) o = (w, Ok v) ∧ s' = Run w (log s ++ [(o, Ok v)]).
Proof.
  unfold perform. destruct (ext (outside s) o) as [w r].
  intros [= <- ->]. eauto.
Qed.

Lemma perform_log o s :
  ∃ r, log (perform ext o s).1 = log s ++ [(o, r)]
       ∧ (perform ext o s).2 = r.
Proof.
  unfold perform. destruct (ext (outside s) o) as [w r]. by exists r.
Qed.

Lemma st_unpack2_Ok_inv r s s' (p : value * value) :
  unpack2 r s = (s', Ok p) → r = VTuple [p.1; p.2] ∧ s' = s.
Proof.
  destruct r as [| | | |[|a [|b [|? ?]]]|]; try discriminate.
  by intros [= <- <-].
Qed.

Lemma prints_app ops ops' : prints (ops ++ ops') = (prints ops + prints ops')%nat.
Proof. unfold prints. by rewrite filter_app, length_app. Qed.

Lemma prints_iterations workflow ind state answers :
  prints (iterations workflow ind state answers) = length answers.
Proof.
  revert state.
  induction answers as [|[[[[state' child] obj] d] printed] answers IH];
    intros state; [done|].
  cbn [iterations length]. rewrite prints_app, IH. done.
Qed.

Lemma loop_returns workflow ind n state s s' v :
  loop ext workflow ind n state s = (s', Ok v) →
  ∃ answers,
    length answers = n
    ∧ log s' = log s ++ iterations workflow ind state answers.
Proof.
  revert state s. induction n as [|n IH]; intros state s H.
  - injection H as <- _. exists []. by rewrite app_nil_r.
  - cbn [loop] in H.
    apply st_bind_Ok_inv in H as (s1 & state' & H1 & H).
    apply perform_returns in H1 as (w1 & _ & ->).
    apply st_bind_Ok_inv in H as (s2 & child & H2 & H).
    apply perform_returns in H2 as (w2 & _ & ->).
    apply st_bind_Ok_inv in H as (s3 & obj & H3 & H).
    apply perform_returns in H3 as (w3 & _ & ->).
    apply st_bind_Ok_inv in H as (s4 & d & H4 & H).
    apply perform_returns in H4 as (w4 & _ & ->).
    apply st_bind_Ok_inv in H as (s5 & printed & H5 & H).
    apply perform_returns in H5 as (w5 & _ & ->).
    apply IH in H as (answers & Hlen & Hlog).
    exists ((state', child, obj, d, printed) :: answers).
    split; [by rewrite <- Hlen|].
    rewrite Hlog. cbn [log iterations]. by rewrite <- !app_assoc.
Qed.

(** A [run_moea] that returns has built the key from the seed 42, the
    monitor, the workflow of the algorithm and the problem with that one
    monitor, initialised the workflow, taken the true front and the state
    from the problem, built the metric, and then run exactly [ITER] = 100
    iterations: each steps the workflow from the state the one before left
    (the first from the state the problem returned), takes the fitness of
    the child state [algorithm], and prints the distance the metric gives
    for it.  So exactly 100 values are printed. *)
Theorem run_moea_returns algorithm problem s s' v :
  run_moea ext algorithm problem s = (s', Ok v) →
  ∃ key monitor workflow state0 true_pf state ind answers,
    v = VNone
    ∧ length answers = ITER
    ∧ log s'
      = log s
        ++ [(PRNGKey 42, Ok key);
            (StdMOMonitor false, Ok monitor);
            (StdWorkflow algorithm problem [monitor], Ok workflow);
            (workflow_init workflow key, Ok state0);
            (problem_pf problem state0, Ok (VTuple [true_pf; state]));
            (IGD true_pf, Ok ind)]
        ++ iterations workflow ind state answers
    ∧ prints (iterations workflow ind state answers) = ITER.
Proof.
  unfold run_moea. intros H.
  apply st_bind_Ok_inv in H as (s1 & key & H1 & H).
  apply perform_returns in H1 as (w1 & _ & ->).
  apply st_bind_Ok_inv in H as (s2 & monitor & H2 & H).
  apply perform_returns in H2 as (w2 & _ & ->).
  apply st_bind_Ok_inv in H as (s3 & workflow & H3 & H).
  apply perform_returns in H3 as (w3 & _ & ->).
  apply st_bind_Ok_inv in H as (s4 & state0 & H4 & H).
  apply perform_returns in H4 as (w4 & _ & ->).
  apply st_bind_Ok_inv in H as (s5 & pf & H5 & H).
  apply perform_returns in H5 as (w5 & _ & ->).
  apply st_bind_Ok_inv in H as (s6 & [true_pf state] & H6 & H).
  apply st_unpack2_Ok_inv in H6 as [-> ->]. cbn [fst snd] in H.
  apply st_bind_Ok_inv in H as (s7 & ind & H7 & H).
  apply perform_returns in H7 as (w7 & _ & ->).
  apply st_bind_Ok_inv in H as (s8 & final & H8 & H).
  apply loop_returns in H8 as (answers & Hlen & Hlog).
  injection H as <- <-.
  exists key, monitor, workflow, state0, true_pf, state, ind, answers.
  split; [done|]. split; [done|]. split.
  - rewrite Hlog. cbn [log]. by rewrite <- !app_assoc.
  - by rewrite prints_iterations.
Qed.

(** The three entry points differ in the class of the algorithm only: one
    that returns has built the bounds [full((12,), 0)] and [full((12,), 1)]
    and the algorithm of its class with 3 objectives and a population of
    100, and handed it to [run_moea] with the default problem, which ran
    its 100 iterations. *)
Theorem moea_returns class problem s s' v :
  moea ext class problem s = (s', Ok v) →
  ∃ lb ub algorithm s1 rest,
    log s1 = log s ++ [(jnp_full [12] 0, Ok lb);
                       (jnp_full [12] 1, Ok ub);
                       (make_algorithm class lb ub 3 100, Ok algorithm)]
    ∧ run_moea ext algorithm problem s1 = (s', Ok v)
    ∧ log s' = log s1 ++ rest
    ∧ prints rest = ITER.
Proof.
  unfold moea. intros H.
  apply st_bind_Ok_inv in H as (s1 & lb & H1 & H).
  apply perform_returns in H1 as (w1 & _ & ->).
  apply st_bind_Ok_inv in H as (s2 & ub & H2 & H).
  apply perform_returns in H2 as (w2 & _ & ->).
  apply st_bind_Ok_inv in H as (s3 & algorithm & H3 & H).
  apply perform_returns in H3 as (w3 & _ & ->).
  destruct (run_moea_returns _ _ _ _ _ H)
    as (key & monitor & workflow & state0 & true_pf & state & ind & answers
        & _ & _ & Hlog & Hprints).
  eexists lb, ub, algorithm, _, _. split; [|split; [exact H|split]].
  - cbn [log]. by rewrite <- !app_assoc.
  - exact Hlog.
  - by rewrite prints_app, Hprints.
Qed.

Lemma loop_prints workflow ind n state s :
  ∃ new,
    log (loop ext workflow ind n state s).1 = log s ++ new
    ∧ match (loop ext workflow ind n state s).2 with
      | Ok _ => prints new = n
      | Raised _ => (prints new < n)%nat
      end.
Proof.
  revert state s. induction n as [|n IH]; intros state s.
  - exists []. cbn. by rewrite app_nil_r.
  - cbn [loop]. unfold bind.
    destruct (perform_log (workflow_step workflow state) s) as (r1 & Hl1 & Hr1).
    destruct (perform ext (workflow_step workflow state) s) as [s1 r1'].
    cbn [fst snd] in *. subst r1'.
    destruct r1 as [state'|x]; cbn [fst snd];
      [|exists [(workflow_step workflow state, Raised x)];
        split; [done|compute; lia]].
    destruct (perform_log (get_child_state state' "algorithm") s1)
      as (r2 & Hl2 & Hr2).
    destruct (perform ext (get_child_state state' "algorithm") s1)
      as [s2 r2'].
    cbn [fst snd] in *. subst r2'.
    destruct r2 as [child|x]; cbn [fst snd].
    2:{ eexists [_; _]. split; [rewrite Hl2, Hl1, <- app_assoc; done|].
        compute. lia. }
    destruct (perform_log (fitness child) s2) as (r3 & Hl3 & Hr3).
    destruct (perform ext (fitness child) s2) as [s3 r3'].
    cbn [fst snd] in *. subst r3'.
    destruct r3 as [obj|x]; cbn [fst snd].
    2:{ eexists [_; _; _].
        split; [rewrite Hl3, Hl2, Hl1, <- !app_assoc; done|]. compute. lia. }
    destruct (perform_log (ind_call ind obj) s3) as (r4 & Hl4 & Hr4).
    destruct (perform ext (ind_call ind obj) s3) as [s4 r4'].
    cbn [fst snd] in *. subst r4'.
    destruct r4 as [d|x]; cbn [fst snd].
    2:{ eexists [_; _; _; _].
        split; [rewrite Hl4, Hl3, Hl2, Hl1, <- !app_assoc; done|].
        compute. lia. }
    destruct (perform_log (print d) s4) as (r5 & Hl5 & Hr5).
    destruct (perform ext (print d) s4) as [s5 r5'].
    cbn [fst snd] in *. subst r5'.
    destruct r5 as [printed|x]; cbn [fst snd].
    2:{ eexists [_; _; _; _; _].
        split; [rewrite Hl5, Hl4, Hl3, Hl2, Hl1, <- !app_assoc; done|].
        compute. lia. }
    destruct (IH state' s5) as (new & Hlog & Hcount).
    exists ([(workflow_step workflow state, Ok state');
             (get_child_state state' "algorithm", Ok child);
             (fitness child, Ok obj); (ind_call ind obj, Ok d);
             (print d, Ok printed)] ++ new).
    split.
    + rewrite Hlog, Hl5, Hl4, Hl3, Hl2, Hl1. by rewrite <- !app_assoc.
    + rewrite prints_app.
      change (prints [(workflow_step workflow state, Ok state');
             (get_child_state state' "algorithm", Ok child);
             (fitness child, Ok obj); (ind_call ind obj, Ok d);
             (print d, Ok printed)]) with 1%nat.
      destruct ((loop ext workflow ind n state' s5).2); lia.
Qed.

Lemma prints_all_perform {B} (o : op) (k : value → @ST W B) n :
  (∀ r, is_print (o, r) = false) → (0 < n)%nat →
  (∀ a, prints_all n (k a)) → prints_all n (bind (perform ext o) k).
Proof.
  intros Ho Hn Hk s. unfold bind.
  destruct (perform_log o s) as (r & Hl & Hr).
  destruct (perform ext o s) as [s1 r']. cbn [fst snd] in *. subst r'.
  assert (prints [(o, r)] = 0%nat) as H0.
  { unfold prints. rewrite filter_cons_False; [done|]. by rewrite Ho. }
  destruct r as [a|x]; cbn [fst snd].
  - destruct (Hk a s1) as (new & Hlog & Hcount).
    exists ([(o, Ok a)] ++ new). split.
    + by rewrite Hlog, Hl, <- app_assoc.
    + rewrite prints_app, H0. by destruct ((k a s1).2).
  - exists [(o, Raised x)]. split; [done|]. by rewrite H0.
Qed.

Lemma prints_all_unpack2 {B} (r : value) (k : value * value → @ST W B) n :
  (0 < n)%nat → (∀ p, prints_all n (k p)) → prints_all n (bind (unpack2 r) k).
Proof.
  intros Hn Hk s. unfold bind.
  destruct r as [| | | |[|a [|b [|? ?]]]|]; cbn;
    try (exists []; rewrite app_nil_r; split; [done|apply Hn]).
  apply Hk.
Qed.

(** Whatever the libraries do, [run_moea] prints at most [ITER] = 100
    values: exactly 100 when it returns, fewer when it raises. *)
Theorem run_moea_prints algorithm problem s :
  ∃ new,
    log (run_moea ext algorithm problem s).1 = log s ++ new
    ∧ match (run_moea ext algorithm problem s).2 with
      | Ok _ => prints new = ITER
      | Raised _ => (prints new < ITER)%nat
      end.
Proof.
  revert s. change (prints_all ITER (run_moea ext algorithm problem)).
  assert (0 < ITER)%nat as Hpos by (unfold ITER; lia).
  unfold run_moea.
  apply prints_all_perform; [done|done|intros key].
  apply prints_all_perform; [done|done|intros monitor].
  apply prints_all_perform; [done|done|intros workflow].
  apply prints_all_perform; [done|done|intros state0].
  apply prints_all_perform; [done|done|intros pf].
  apply prints_all_unpack2; [done|intros [true_pf state]].
  apply prints_all_perform; [done|done|intros ind].
  intros s. unfold bind.
  destruct (loop_prints workflow ind ITER state s) as (new & Hl & Hc).
  exists new. split.
  - by destruct (loop ext _ ind ITER state s) as [s1 [r|x]].
  - by destruct (loop ext _ ind ITER state s) as [s1 [r|x]].
Qed.

End Script.

End MoeaProperties.

(** ** The further properties on concrete worlds *)

Lemma module_load_returns_witness :
  module_load installed boot
  = ((module_load installed boot).1, Ok loaded_globals)
  ∧ is_stub (g_RBF loaded_globals) = false.
Proof.
  assert (module_load installed boot
          = ((module_load installed boot).1, Ok loaded_globals)) as H
    by (vm_compute; reflexivity).
  split; [exact H|].
  exact (proj1 (proj2 (module_load_returns installed boot _ _ H))).
Defined.

Lemma module_load_gpjax_ImportError_witness :
  (module_load gpjax_missing boot).2
  = Raised (ImportError (stub_message "RBF" "No module named 'gpjax'"))
  ∧ contains (stub_message "RBF" "No module named 'gpjax'")
             "No module named 'gpjax'".
Proof.
  destruct (module_load_gpjax_ImportError gpjax_missing boot 1%N 2%N 3%N 4%N
              (VObj 0) (VObj 1) (VObj 2) (VObj 3)
              (import_gpjax gpjax_missing
                 (Machine ∅ 4%N
                    [(EImport "jax" None, Ok (VObj 0));
                     (EImport "jax.random" None, Ok (VObj 1));
                     (EImport "jax.numpy" None, Ok (VObj 2));
                     (EImport "optax" None, Ok (VObj 3))])).1
              (ModuleNotFoundError "No module named 'gpjax'"))
    as [Hload Hcontains];
    [reflexivity|reflexivity|reflexivity|reflexivity|reflexivity|reflexivity|].
  split; [by rewrite Hload|exact Hcontains].
Defined.

Lemma module_load_other_exception_witness :
  (module_load gpjax_broken boot).2
  = Raised (OtherError "RuntimeError" "jaxlib version mismatch").
Proof.
  rewrite (module_load_other_exception gpjax_broken boot 1%N 2%N 3%N 4%N
             (VObj 0) (VObj 1) (VObj 2) (VObj 3)
             (import_gpjax gpjax_broken
                (Machine ∅ 4%N
                   [(EImport "jax" None, Ok (VObj 0));
                    (EImport "jax.random" None, Ok (VObj 1));
                    (EImport "jax.numpy" None, Ok (VObj 2));
                    (EImport "optax" None, Ok (VObj 3))])).1
             (OtherError "RuntimeError" "jaxlib version mismatch"));
    reflexivity.
Defined.

Lemma init_returns_witness :
  init installed loaded_globals (VObj 8) (VObj 9) VNone (VObj 10) (VObj 12)
       (Machine ∅ 14%N [])
  = (built, Ok VNone)
  ∧ self built !! "posterior" = Some (VObj 17).
Proof.
  assert (init installed loaded_globals (VObj 8) (VObj 9) VNone (VObj 10)
               (VObj 12) (Machine ∅ 14%N [])
          = (built, Ok VNone)) as H by (vm_compute; reflexivity).
  split; [exact H|].
  destruct (init_returns installed _ _ _ _ _ _ _ _ _ H)
    as (? & ? & ? & ? & _).
  vm_compute; reflexivity.
Defined.

Lemma load_then_construct_witness :
  module_load installed boot
  = ((module_load installed boot).1, Ok loaded_globals)
  ∧ self (construct installed loaded_globals None None None None None
            (module_load installed boot).1).1 !! "likelihood" = Some VNone.
Proof.
  assert (module_load installed boot
          = ((module_load installed boot).1, Ok loaded_globals)) as H
    by (vm_compute; reflexivity).
  assert (construct installed loaded_globals None None None None None
            (module_load installed boot).1
          = ((construct installed loaded_globals None None None None None
                (module_load installed boot).1).1, Ok VNone)) as Hc
    by (vm_compute; reflexivity).
  split; [exact H|].
  destruct (load_then_construct installed boot _ _ _ _ H Hc)
    as (? & ? & ? & ? & ? & ? & ? & ? & _ & _ & _ & _ & _ & _ & Hl & _).
  exact Hl.
Defined.

Lemma fit_raised_witness :
  (fit fit_failing loaded_globals (VObj 100) (VObj 101) (VObj 13) built).2
  = Raised (OtherError "FloatingPointError" "invalid value")
  ∧ self (fit fit_failing loaded_globals (VObj 100) (VObj 101) (VObj 13)
            built).1 !! "opt_posterior" = self built !! "opt_posterior".
Proof.
  assert (fit fit_failing loaded_globals (VObj 100) (VObj 101) (VObj 13) built
          = ((fit fit_failing loaded_globals (VObj 100) (VObj 101) (VObj 13)
                built).1,
             Raised (OtherError "FloatingPointError" "invalid value"))) as H
    by (vm_compute; reflexivity).
  split; [by rewrite H|].
  exact (proj1 (fit_raised fit_failing loaded_globals _ _ _ _ _ _ H)).
Defined.

Lemma predict_before_fit_witness :
  (predict installed (VObj 200) built).2
  = Raised (AttributeError
              "'GPClassification' object has no attribute 'opt_posterior'").
Proof.
  assert (init installed loaded_globals (VObj 8) (VObj 9) VNone (VObj 10)
               (VObj 12) (Machine ∅ 14%N [])
          = (built, Ok VNone)) as H by (vm_compute; reflexivity).
  by rewrite (predict_before_fit installed loaded_globals _ _ _ _ _
                (VObj 200) (Machine ∅ 14%N []) _ _ eq_refl H).
Defined.

Lemma fit_then_predict_witness :
  fit installed loaded_globals (VObj 100) (VObj 101) (VObj 13) built
  = (fitted, Ok VNone)
  ∧ ∃ ops, performed fitted (predict installed (VObj 200) fitted).1
             ((EGetAttr (VObj 28) "predict", Ok (VObj 30)) :: ops).
Proof.
  assert (fit installed loaded_globals (VObj 100) (VObj 101) (VObj 13) built
          = (fitted, Ok VNone)) as H by (vm_compute; reflexivity).
  assert (predict installed (VObj 200) fitted
          = ((predict installed (VObj 200) fitted).1,
             Ok (VTuple [VObj 33; VObj 35; VObj 37]))) as Hp
    by (vm_compute; reflexivity).
  split; [exact H|].
  destruct (fit_then_predict installed loaded_globals _ _ _ _ _ _ _ _ _ H Hp)
    as (? & ? & ? & ? & ? & ? & ? & ? & ? & ? & ? & ? & ? & ? & ? & ? & ? & ?
        & ? & ? & ? & ? & ? & _).
  eexists. vm_compute. reflexivity.
Defined.

Lemma built_agree : agree_on ["object"; "posterior"; "key"] built built_bare.
Proof.
  split; [reflexivity|]. intros k.
  rewrite !elem_of_cons, elem_of_nil.
  intros [->|[->|[->|[]]]]; vm_compute; reflexivity.
Defined.

Lemma fit_reads_witness :
  agree_on ["object"; "posterior"; "key"] built built_bare
  ∧ (fit installed loaded_globals (VObj 100) (VObj 101) (VObj 13) built).2
    = (fit installed loaded_globals (VObj 100) (VObj 101) (VObj 13)
         built_bare).2.
Proof.
  split; [exact built_agree|].
  exact (proj1 (fit_reads installed loaded_globals (VObj 100) (VObj 101)
                  (VObj 13) built built_bare built_agree)).
Defined.

Lemma fitted_agree : agree_on ["opt_posterior"; "dataset"] fitted fitted_bare.
Proof.
  split; [reflexivity|]. intros k.
  rewrite !elem_of_cons, elem_of_nil.
  intros [->|[->|[]]]; vm_compute; reflexivity.
Defined.

Lemma predict_reads_witness :
  agree_on ["opt_posterior"; "dataset"] fitted fitted_bare
  ∧ (predict installed (VObj 200) fitted).2
    = (predict installed (VObj 200) fitted_bare).2.
Proof.
  split; [exact fitted_agree|].
  exact (proj1 (predict_reads installed (VObj 200) fitted fitted_bare
                  fitted_agree)).
Defined.

Lemma rr_loop_fills_witness :
  has_shape 4 3 (vmap f [0; 1; 2])
  ∧ ∃ out, foldl (rr_body (vmap f [0; 1; 2])) (Some (zeros 4 9)) (seq 0 4)
           = Some out
           ∧ length out = 4%nat.
Proof.
  assert (has_shape 4 3 (vmap f [0; 1; 2])) as Hshape
    by (repeat constructor).
  split; [exact Hshape|].
  destruct (rr_loop_fills 4 3 (vmap f [0; 1; 2]) (zeros 4 9) Hshape)
    as (out & Hloop & Hlen & _); [reflexivity|by repeat constructor|].
  by exists out.
Defined.

Lemma run_moea_returns_witness :
  Moea.run_moea Moea.fresh (VObj 0) (VObj 1) (Moea.Run 2%N [])
  = ((Moea.run_moea Moea.fresh (VObj 0) (VObj 1) (Moea.Run 2%N [])).1,
     Ok VNone)
  ∧ ∃ answers : list Moea.iteration, length answers = Moea.ITER.
Proof.
  assert (Moea.run_moea Moea.fresh (VObj 0) (VObj 1) (Moea.Run 2%N [])
          = ((Moea.run_moea Moea.fresh (VObj 0) (VObj 1)
                (Moea.Run 2%N [])).1, Ok VNone)) as H
    by (vm_compute; reflexivity).
  split; [exact H|].
  destruct (MoeaProperties.run_moea_returns Moea.fresh (VObj 0) (VObj 1)
              (Moea.Run 2%N [])
              (Moea.run_moea Moea.fresh (VObj 0) (VObj 1)
                 (Moea.Run 2%N [])).1 VNone H)
    as (? & ? & ? & ? & ? & ? & ? & answers & _ & Hlen & _).
  exists answers. exact Hlen.
Defined.

Lemma moea_returns_witness :
  Moea.moea Moea.fresh "NSGA2" (VObj 0) (Moea.Run 1%N [])
  = ((Moea.moea Moea.fresh "NSGA2" (VObj 0) (Moea.Run 1%N [])).1, Ok VNone)
  ∧ ∃ rest, Moea.prints rest = Moea.ITER.
Proof.
  assert (Moea.moea Moea.fresh "NSGA2" (VObj 0) (Moea.Run 1%N [])
          = ((Moea.moea Moea.fresh "NSGA2" (VObj 0) (Moea.Run 1%N [])).1,
             Ok VNone))
    as H by (vm_compute; reflexivity).
  split; [exact H|].
  set (s' := (Moea.moea Moea.fresh "NSGA2" (VObj 0) (Moea.Run 1%N [])).1)
    in H.
  pose proof (MoeaProperties.moea_returns Moea.fresh "NSGA2" (VObj 0)
                (Moea.Run 1%N []) s' VNone H)
    as (? & ? & ? & ? & rest & _ & _ & _ & Hprints).
  exists rest. exact Hprints.
Defined.
